(** * Signal registry of [mo_analysis] (src/mo_analysis.py)

    A shallow embedding of the class [mo_analysis]: the object's attributes
    are a record, its methods are computations in a small state-and-exception
    monad, and Python's insertion-ordered dictionaries are association lists
    that are updated in place. *)

From Stdlib Require Import List String Bool QArith Permutation.
Import ListNotations.
Local Open Scope string_scope.
Local Open Scope list_scope.

(** ** Python values stored in a rule *)

(** The functions of Python's [operator] module that the docstrings name as
    an alternative to the tokens [">"], ["<"], ... *)
Inductive operator_fn : Type :=
| op_gt | op_lt | op_ge | op_le | op_eq | op_ne.

(** The arguments of the registration methods are not checked by the source:
    a threshold is annotated [float], a condition is [Any], and the optional
    ones default to [None]. *)
Inductive value : Type :=
| VNone
| VNum (q : Q)
| VStr (s : string)
| VOperator (f : operator_fn).

(** ** Insertion-ordered dictionaries with string keys *)

Section OrderedDict.
Context {V : Type}.

Definition odict : Type := list (string * V).

(** [d[k]]; [None] stands for the [KeyError] of a missing key. *)
Fixpoint od_lookup (k : string) (d : odict) : option V :=
  match d with
  | [] => None
  | (k', v) :: d' => if String.eqb k k' then Some v else od_lookup k d'
  end.

(** [k in d] *)
Definition od_mem (k : string) (d : odict) : bool :=
  match od_lookup k d with
  | Some _ => true
  | None => false
  end.

(** [d[k] = v]: an existing key keeps its position, a new key goes last. *)
Fixpoint od_set (k : string) (v : V) (d : odict) : odict :=
  match d with
  | [] => [(k, v)]
  | (k', v') :: d' =>
      if String.eqb k k' then (k', v) :: d' else (k', v') :: od_set k v d'
  end.

(** [list(d)]: the keys in iteration order. *)
Definition od_keys (d : odict) : list string := map fst d.

End OrderedDict.

Arguments odict V : clear implicits.

(** A stored rule is a dictionary from field names to values; the registry
    [_mo_analysis_signals] is a dictionary from rule keys to stored rules. *)
Definition rule_dict : Type := odict value.
Definition signals_dict : Type := odict rule_dict.

(** ** The collaborators held by reference *)

(** pandas objects are opaque to this class and no method of it mutates one,
    so an object is represented by its identity and by the one attribute the
    class inspects (the kind of its index). *)
Inductive index_kind : Type := FlatIndex | MultiIndex.

Record DataFrame : Type := mkDataFrame {
  df_id : nat;
  df_index : index_kind
}.

Record GroupBy : Type := mkGroupBy {
  gb_id : nat
}.

(** [pyrobot.stock_frame.StockFrame], as far as [__init__] reads it. *)
Record StockFrame : Type := mkStockFrame {
  frame : DataFrame;
  symbol_groups : GroupBy
}.

(** ** The object *)

Record mo_analysis : Type := mk_mo_analysis {
  _stock_frame : StockFrame;
  _price_groups : GroupBy;
  _current_mo_analysis : odict value;
  _mo_analysis_signals : signals_dict;
  _frame : DataFrame;
  _mo_analysis_comp_key : list string;
  _mo_analysis_key : list string
}.

Definition with_signals (sigs : signals_dict) (self : mo_analysis) : mo_analysis :=
  mk_mo_analysis (_stock_frame self) (_price_groups self)
    (_current_mo_analysis self) sigs (_frame self)
    (_mo_analysis_comp_key self) (_mo_analysis_key self).

Definition with_frame (df : DataFrame) (self : mo_analysis) : mo_analysis :=
  mk_mo_analysis (_stock_frame self) (_price_groups self)
    (_current_mo_analysis self) (_mo_analysis_signals self) df
    (_mo_analysis_comp_key self) (_mo_analysis_key self).

Definition with_comp_key (l : list string) (self : mo_analysis) : mo_analysis :=
  mk_mo_analysis (_stock_frame self) (_price_groups self)
    (_current_mo_analysis self) (_mo_analysis_signals self) (_frame self)
    l (_mo_analysis_key self).

Definition with_key (l : list string) (self : mo_analysis) : mo_analysis :=
  mk_mo_analysis (_stock_frame self) (_price_groups self)
    (_current_mo_analysis self) (_mo_analysis_signals self) (_frame self)
    (_mo_analysis_comp_key self) l.

(** ** Methods as computations over [self] *)

Inductive exn : Type :=
| KeyError (k : string)
| OtherError (name : string).

(** The error the specification calls [InvalidConfig]. *)
Definition InvalidConfig : exn := OtherError "InvalidConfig".

(** A call either returns a value or raises; in both cases the mutations done
    so far stay in the object. *)
Inductive outcome (A : Type) : Type :=
| Returns (a : A) (self : mo_analysis)
| Raises (e : exn) (self : mo_analysis).

Arguments Returns {A} a self.
Arguments Raises {A} e self.

Definition M (A : Type) : Type := mo_analysis -> outcome A.

Definition ret {A : Type} (a : A) : M A := fun self => Returns a self.

Definition bind {A B : Type} (c : M A) (f : A -> M B) : M B :=
  fun self =>
    match c self with
    | Returns a self' => f a self'
    | Raises e self' => Raises e self'
    end.

Definition raise {A : Type} (e : exn) : M A := fun self => Raises e self.

Declare Scope py_scope.
Delimit Scope py_scope with py.
Notation "x <- c1 ;; c2" := (bind c1 (fun x => c2))
  (at level 61, c1 at next level, right associativity) : py_scope.
Notation "c1 ;; c2" := (bind c1 (fun _ => c2))
  (at level 61, right associativity) : py_scope.
Local Open Scope py_scope.

(** [k in self._mo_analysis_signals] *)
Definition signals_contains (k : string) : M bool :=
  fun self => Returns (od_mem k (_mo_analysis_signals self)) self.

(** [self._mo_analysis_signals[k]] *)
Definition signals_getitem (k : string) : M rule_dict :=
  fun self =>
    match od_lookup k (_mo_analysis_signals self) with
    | Some d => Returns d self
    | None => Raises (KeyError k) self
    end.

(** [self._mo_analysis_signals[k] = d] *)
Definition signals_setitem (k : string) (d : rule_dict) : M unit :=
  fun self => Returns tt (with_signals (od_set k d (_mo_analysis_signals self)) self).

(** [self._mo_analysis_signals[k][field] = v]: the stored rule is mutated in
    place, so the registry sees the new field under the same key. *)
Definition signals_setfield (k field : string) (v : value) : M unit :=
  d <- signals_getitem k ;;
  signals_setitem k (od_set field v d).

(** [self._mo_analysis_key.append(k)] *)
Definition key_append (k : string) : M unit :=
  fun self => Returns tt (with_key (_mo_analysis_key self ++ [k]) self).

(** [self._mo_analysis_comp_key.append(k)] *)
Definition comp_key_append (k : string) : M unit :=
  fun self => Returns tt (with_comp_key (_mo_analysis_comp_key self ++ [k]) self).

(** The property [is_multi_index]. *)
Definition is_multi_index (self : mo_analysis) : bool :=
  match df_index (_frame self) with
  | MultiIndex => true
  | FlatIndex => false
  end.

(** [__init__(self, price_data_frame)]; the final [if self.is_multi_index:
    True] evaluates the property and does nothing with it. *)
Definition __init__ (price_data_frame : StockFrame) : mo_analysis :=
  let self :=
    mk_mo_analysis price_data_frame (symbol_groups price_data_frame)
      [] [] (frame price_data_frame) [] [] in
  if is_multi_index self then self else self.

(** What [get_mo_analysis_signal] can hand back: one stored rule or the whole
    registry.  [RNone] is Python's [None], which no path of the method
    returns. *)
Inductive returned : Type :=
| RNone
| RRule (d : rule_dict)
| RSignals (sigs : signals_dict).

(** Truth value of a string: the empty string is false. *)
Definition str_truthy (s : string) : bool :=
  match s with
  | EmptyString => false
  | String _ _ => true
  end.

(** [get_mo_analysis_signal(self, indicator=None)] *)
Definition get_mo_analysis_signal (indicator : option string) : M returned :=
  match indicator with
  | Some name =>
      present <- (if str_truthy name then signals_contains name else ret false) ;;
      if (present : bool) then
        d <- signals_getitem name ;; ret (RRule d)
      else
        fun self => Returns (RSignals (_mo_analysis_signals self)) self
  | None =>
      fun self => Returns (RSignals (_mo_analysis_signals self)) self
  end.

(** [set_mo_analysis_signal(self, indicator, buy, sell, condition_buy,
    condition_sell, buy_max=None, sell_max=None, condition_buy_max=None,
    condition_sell_max=None)]; an omitted optional argument is [VNone]. *)
Definition set_mo_analysis_signal
    (indicator : string) (buy sell condition_buy condition_sell : value)
    (buy_max sell_max condition_buy_max condition_sell_max : value) : M unit :=
  present <- signals_contains indicator ;;
  (if negb present then
     signals_setitem indicator [] ;;
     key_append indicator
   else ret tt) ;;
  signals_setfield indicator "buy" buy ;;
  signals_setfield indicator "sell" sell ;;
  signals_setfield indicator "buy_operator" condition_buy ;;
  signals_setfield indicator "sell_operator" condition_sell ;;
  signals_setfield indicator "buy_max" buy_max ;;
  signals_setfield indicator "sell_max" sell_max ;;
  signals_setfield indicator "buy_operator_max" condition_buy_max ;;
  signals_setfield indicator "sell_operator_max" condition_sell_max.

(** ["{ind_1}_comp_{ind_2}".format(ind_1=indicator_1, ind_2=indicator_2)] *)
Definition comp_key (indicator_1 indicator_2 : string) : string :=
  indicator_1 ++ "_comp_" ++ indicator_2.

(** [set_mo_analysis_signal_compare(self, indicator_1, indicator_2,
    condition_buy, condition_sell)].  [mo_analysis_dict] is an alias of the
    stored rule, so each assignment to it is a field update in the registry. *)
Definition set_mo_analysis_signal_compare
    (indicator_1 indicator_2 : string) (condition_buy condition_sell : value) : M unit :=
  let key := comp_key indicator_1 indicator_2 in
  present <- signals_contains key ;;
  (if negb present then
     signals_setitem key [] ;;
     comp_key_append key
   else ret tt) ;;
  _ <- signals_getitem key ;;
  signals_setfield key "type" (VStr "comparison") ;;
  signals_setfield key "indicator_1" (VStr indicator_1) ;;
  signals_setfield key "indicator_2" (VStr indicator_2) ;;
  signals_setfield key "buy_operator" condition_buy ;;
  signals_setfield key "condition_sell" condition_sell.

(** The getter and the setter of the property [price_data_frame]. *)
Definition price_data_frame : M DataFrame :=
  fun self => Returns (_frame self) self.

Definition set_price_data_frame (price_data_frame : DataFrame) : M unit :=
  fun self => Returns tt (with_frame price_data_frame self).

(** ** Call traces and reachable objects *)

Inductive call : Type :=
| CallSet (indicator : string) (buy sell condition_buy condition_sell : value)
    (buy_max sell_max condition_buy_max condition_sell_max : value)
| CallSetCompare (indicator_1 indicator_2 : string) (condition_buy condition_sell : value)
| CallGet (indicator : option string)
| CallSetFrame (price_data_frame : DataFrame).

Definition run_call (c : call) : M unit :=
  match c with
  | CallSet i b s cb cs bm sm cbm csm => set_mo_analysis_signal i b s cb cs bm sm cbm csm
  | CallSetCompare i1 i2 cb cs => set_mo_analysis_signal_compare i1 i2 cb cs
  | CallGet i => _ <- get_mo_analysis_signal i ;; ret tt
  | CallSetFrame df => set_price_data_frame df
  end.

(** The object a call leaves behind, whether it returned or raised. *)
Definition state_after {A : Type} (o : outcome A) : mo_analysis :=
  match o with
  | Returns _ self => self
  | Raises _ self => self
  end.

Fixpoint run_calls (cs : list call) (self : mo_analysis) : mo_analysis :=
  match cs with
  | [] => self
  | c :: cs' => run_calls cs' (state_after (run_call c self))
  end.

Inductive reachable : mo_analysis -> Prop :=
| reach_init (sf : StockFrame) : reachable (__init__ sf)
| reach_call (self : mo_analysis) (c : call) :
    reachable self -> reachable (state_after (run_call c self)).

(** The registry key a call registers, if it registers one. *)
Definition registered_key (c : call) : option string :=
  match c with
  | CallSet i _ _ _ _ _ _ _ _ => Some i
  | CallSetCompare i1 i2 _ _ => Some (comp_key i1 i2)
  | CallGet _ => None
  | CallSetFrame _ => None
  end.

(** ** The max-guard condition of a stored threshold rule *)

(** A field counts as present when the rule has it and it is not [None]. *)
Definition field_present (field : string) (d : rule_dict) : bool :=
  match od_lookup field d with
  | Some VNone => false
  | Some _ => true
  | None => false
  end.

(** A max cutoff is never stored without its operator. *)
Definition max_guard_ok (d : rule_dict) : bool :=
  implb (field_present "buy_max" d) (field_present "buy_operator_max" d)
  && implb (field_present "sell_max" d) (field_present "sell_operator_max" d).

Definition all_max_guards_ok (self : mo_analysis) : bool :=
  forallb (fun kd => max_guard_ok (snd kd)) (_mo_analysis_signals self).

(** The eight assignments of lines 109 to 118, as one update of the stored
    rule. *)
Definition threshold_update
    (buy sell condition_buy condition_sell : value)
    (buy_max sell_max condition_buy_max condition_sell_max : value)
    (d : rule_dict) : rule_dict :=
  od_set "sell_operator_max" condition_sell_max
    (od_set "buy_operator_max" condition_buy_max
      (od_set "sell_max" sell_max
        (od_set "buy_max" buy_max
          (od_set "sell_operator" condition_sell
            (od_set "buy_operator" condition_buy
              (od_set "sell" sell
                (od_set "buy" buy d))))))).

Definition threshold_fields : list string :=
  ["buy"; "sell"; "buy_operator"; "sell_operator";
   "buy_max"; "sell_max"; "buy_operator_max"; "sell_operator_max"].

(** The five assignments of lines 159 to 163. *)
Definition comparison_update
    (indicator_1 indicator_2 : string) (condition_buy condition_sell : value)
    (d : rule_dict) : rule_dict :=
  od_set "condition_sell" condition_sell
    (od_set "buy_operator" condition_buy
      (od_set "indicator_2" (VStr indicator_2)
        (od_set "indicator_1" (VStr indicator_1)
          (od_set "type" (VStr "comparison") d)))).

(** The state [set_mo_analysis_signal] leaves: the rule under [indicator]
    (an empty one if the key is new, which is then also appended to
    [_mo_analysis_key]) with its eight fields assigned. *)
Definition after_set_signal
    (indicator : string) (buy sell condition_buy condition_sell : value)
    (buy_max sell_max condition_buy_max condition_sell_max : value)
    (self : mo_analysis) : mo_analysis :=
  let upd := threshold_update buy sell condition_buy condition_sell
               buy_max sell_max condition_buy_max condition_sell_max in
  match od_lookup indicator (_mo_analysis_signals self) with
  | Some d =>
      with_signals (od_set indicator (upd d) (_mo_analysis_signals self)) self
  | None =>
      with_key (_mo_analysis_key self ++ [indicator])
        (with_signals (od_set indicator (upd []) (_mo_analysis_signals self)) self)
  end.

(** The state [set_mo_analysis_signal_compare] leaves. *)
Definition after_set_compare
    (indicator_1 indicator_2 : string) (condition_buy condition_sell : value)
    (self : mo_analysis) : mo_analysis :=
  let key := comp_key indicator_1 indicator_2 in
  let upd := comparison_update indicator_1 indicator_2 condition_buy condition_sell in
  match od_lookup key (_mo_analysis_signals self) with
  | Some d =>
      with_signals (od_set key (upd d) (_mo_analysis_signals self)) self
  | None =>
      with_comp_key (_mo_analysis_comp_key self ++ [key])
        (with_signals (od_set key (upd []) (_mo_analysis_signals self)) self)
  end.

(** ** Concrete objects, rules and calls *)

(** A stock frame with a multi-index table, and the object constructed
    from it. *)
Definition sample_stock_frame : StockFrame :=
  mkStockFrame (mkDataFrame 1 MultiIndex) (mkGroupBy 2).

Definition fresh : mo_analysis := __init__ sample_stock_frame.

(** The rule stored by
    [set_mo_analysis_signal("rsi", 10, 5, ">", "<", buy_max=20)] on a new
    object. *)
Definition rsi_rule_dangling : rule_dict :=
  [("buy", VNum 10); ("sell", VNum 5);
   ("buy_operator", VStr ">"); ("sell_operator", VStr "<");
   ("buy_max", VNum 20); ("sell_max", VNone);
   ("buy_operator_max", VNone); ("sell_operator_max", VNone)].

(** A max cutoff is supplied and its operator is omitted. *)
Definition dangling (cutoff operator : value) : Prop :=
  cutoff <> VNone /\ operator = VNone.

(** A threshold rule as a first registration stores it. *)
Definition rsi_rule : rule_dict :=
  [("buy", VNum 10); ("sell", VNum 5);
   ("buy_operator", VStr ">"); ("sell_operator", VStr "<");
   ("buy_max", VNum 20); ("sell_max", VNum 1);
   ("buy_operator_max", VStr ">"); ("sell_operator_max", VStr "<")].

(** The call that stores [rsi_rule]. *)
Definition register_rsi : call :=
  CallSet "rsi" (VNum 10) (VNum 5) (VStr ">") (VStr "<")
    (VNum 20) (VNum 1) (VStr ">") (VStr "<").



(** ** Evaluating a threshold rule *)

Module SignalEvaluator.

(** Modelled from the spec: the evaluator of the repository is not among
    the sources (the class hands the frame to [pyrobot.stock_frame]), so the
    relational operators are the closed enumeration of section 3. *)
Inductive RelOp : Type := GT | LT | GE | LE | EQ | NE.

(** Modelled from the spec: the threshold variant of [SignalRule] in
    section 3, with its optional max-guard cutoffs and operators; the
    evaluator that reads it is missing from the sources. *)
Record ThresholdRule : Type := mkThresholdRule {
  indicator_name : string;
  buy : Q;
  sell : Q;
  buy_operator : RelOp;
  sell_operator : RelOp;
  buy_max : option Q;
  sell_max : option Q;
  buy_max_operator : option RelOp;
  sell_max_operator : option RelOp
}.

(** Modelled from the spec: the verdict of section 4.2, whose evaluator is
    missing from the sources; [Indeterminate] is the outcome for a missing
    value. *)
Inductive verdict : Type := Fires | Silent | Indeterminate.

(** Modelled from the spec: the operator semantics of section 4.2 (GT is
    [a > b], LT is [a < b], ...), the comparison function of the missing
    evaluator, on exact rationals. *)
Definition relop_holds (o : RelOp) (a b : Q) : bool :=
  match o with
  | GT => negb (Qle_bool a b)
  | LT => negb (Qle_bool b a)
  | GE => Qle_bool b a
  | LE => Qle_bool a b
  | EQ => Qeq_bool a b
  | NE => negb (Qeq_bool a b)
  end.

(** Modelled from the spec: the max guard of the missing evaluator holds
    when the cutoff is set and its operator holds of the value and the
    cutoff; a cutoff without operator, which the spec calls invalid, guards
    nothing here. *)
Definition guard_holds (v : Q) (cutoff : option Q) (o : option RelOp) : bool :=
  match cutoff, o with
  | Some m, Some o' => relop_holds o' v m
  | _, _ => false
  end.

(** Modelled from the spec: the buy signal of the missing evaluator for a
    threshold rule: [buy_operator(v, buy)], forced to false when the max
    guard holds; a missing value gives [Indeterminate]. *)
Definition buy_signal (r : ThresholdRule) (v : option Q) : verdict :=
  match v with
  | None => Indeterminate
  | Some x =>
      if relop_holds (buy_operator r) x (buy r)
         && negb (guard_holds x (buy_max r) (buy_max_operator r))
      then Fires else Silent
  end.

(** Modelled from the spec: the sell signal of the missing evaluator,
    symmetric to the buy signal. *)
Definition sell_signal (r : ThresholdRule) (v : option Q) : verdict :=
  match v with
  | None => Indeterminate
  | Some x =>
      if relop_holds (sell_operator r) x (sell r)
         && negb (guard_holds x (sell_max r) (sell_max_operator r))
      then Fires else Silent
  end.

End SignalEvaluator.

(** ** The rest of the class *)

(** The field names that [set_mo_analysis_signal_compare] assigns. *)
Definition comparison_fields : list string :=
  ["type"; "indicator_1"; "indicator_2"; "buy_operator"; "condition_sell"].

(** The rule has every field of the list. *)
Definition has_fields (fields : list string) (d : rule_dict) : bool :=
  forallb (fun field => od_mem field d) fields.

(** The table the getter of [price_data_frame] returns after a trace of
    calls: the one of the last assignment through the setter, or the one the
    object held before. *)
Fixpoint last_assigned_frame (cs : list call) (df : DataFrame) : DataFrame :=
  match cs with
  | [] => df
  | CallSetFrame df' :: cs' => last_assigned_frame cs' df'
  | _ :: cs' => last_assigned_frame cs' df
  end.

(** The keys that the calls of a trace register, in order. *)
Fixpoint registered_keys (cs : list call) : list string :=
  match cs with
  | [] => []
  | c :: cs' =>
      match registered_key c with
      | Some k => k :: registered_keys cs'
      | None => registered_keys cs'
      end
  end.

(** What [lr_proj] would record for a column: the arguments of the call
    under ['args'] and the bound method under ['func']. *)
Inductive indicator_entry : Type :=
| EntryArgs (locals_data : odict value)
| EntryFunc (method : string).

(** [self._current_indicators]: [__init__] binds [_current_mo_analysis] and
    six other attributes, none of this name, and the class defines only its
    methods and two properties, so the attribute lookup raises. *)
Definition load_current_indicators : M (odict (odict indicator_entry)) :=
  raise (OtherError "AttributeError").

(** [lr_proj(self, y, n, column_name='lr_proj')]: [locals()] without
    ['self'], then the three assignments into [self._current_indicators],
    then [return self._frame]. *)
Definition lr_proj (y n : value) (column_name : string) : M DataFrame :=
  let locals_data : odict value :=
    [("y", y); ("n", n); ("column_name", VStr column_name)] in
  current <- load_current_indicators ;;
  let current := od_set column_name [] current in
  current <- (match od_lookup column_name current with
              | Some entry =>
                  ret (od_set column_name
                         (od_set "args" (EntryArgs locals_data) entry) current)
              | None => raise (KeyError column_name)
              end) ;;
  _ <- (match od_lookup column_name current with
        | Some entry =>
            ret (od_set column_name
                   (od_set "func" (EntryFunc "lr_proj") entry) current)
        | None => raise (KeyError column_name)
        end) ;;
  price_data_frame.

(** The keys of the registry are pairwise different and are, up to order,
    the keys of the two key lists together. *)
Definition keys_partitioned (self : mo_analysis) : Prop :=
  NoDup (od_keys (_mo_analysis_signals self))
  /\ Permutation (od_keys (_mo_analysis_signals self))
       (_mo_analysis_key self ++ _mo_analysis_comp_key self).

(** The rule has all the fields of a threshold or all those of a
    comparison. *)
Definition rule_shaped (d : rule_dict) : bool :=
  has_fields threshold_fields d || has_fields comparison_fields d.

(** A run of assignments [d[k1] = v1; d[k2] = v2; ...] on one dictionary. *)
Definition od_set_all {V : Type} (l : list (string * V)) (d : odict V) : odict V :=
  fold_left (fun d' kv => od_set (fst kv) (snd kv) d') l d.

(** The rule a registration call writes, from the rule its key held before
    (the empty rule when the key is new). *)
Definition rule_written (c : call) (old : rule_dict) : rule_dict :=
  match c with
  | CallSet _ b s cb cs bm sm cbm csm => threshold_update b s cb cs bm sm cbm csm old
  | CallSetCompare i1 i2 cb cs => comparison_update i1 i2 cb cs old
  | CallGet _ => old
  | CallSetFrame _ => old
  end.

(** * Properties *)

(** ** Facts about ordered dictionaries *)

Section OrderedDictFacts.
Context {V : Type}.
Implicit Types (d : odict V) (k : string) (v : V).

Lemma od_lookup_set_eq k v d : od_lookup k (od_set k v d) = Some v.
Proof.
  induction d as [|[k' v'] d IH]; simpl.
  - now rewrite String.eqb_refl.
  - destruct (String.eqb k k') eqn:E; simpl; rewrite E; auto.
Qed.

Lemma od_lookup_set_neq k k' v d :
  k <> k' -> od_lookup k (od_set k' v d) = od_lookup k d.
Proof.
  intros Hne. apply String.eqb_neq in Hne.
  induction d as [|[k'' v''] d IH]; simpl.
  - now rewrite Hne.
  - destruct (String.eqb k' k'') eqn:E; simpl.
    + apply String.eqb_eq in E; subst k''. now rewrite Hne.
    + now rewrite IH.
Qed.

Lemma od_lookup_set k k' v d :
  od_lookup k (od_set k' v d) =
  if String.eqb k k' then Some v else od_lookup k d.
Proof.
  destruct (String.eqb k k') eqn:E.
  - apply String.eqb_eq in E; subst. apply od_lookup_set_eq.
  - apply String.eqb_neq in E. now apply od_lookup_set_neq.
Qed.

Lemma od_set_set k v v' d : od_set k v' (od_set k v d) = od_set k v' d.
Proof.
  induction d as [|[k' v''] d IH]; simpl.
  - now rewrite String.eqb_refl.
  - destruct (String.eqb k k') eqn:E; simpl; rewrite E; congruence.
Qed.

Lemma od_mem_set k k' v d :
  od_mem k (od_set k' v d) = String.eqb k k' || od_mem k d.
Proof.
  unfold od_mem. rewrite od_lookup_set.
  now destruct (String.eqb k k').
Qed.

Lemma od_keys_set_present k v d :
  od_mem k d = true -> od_keys (od_set k v d) = od_keys d.
Proof.
  unfold od_mem, od_keys.
  induction d as [|[k' v'] d IH]; simpl; [discriminate|].
  destruct (String.eqb k k') eqn:E; simpl; intros H; [reflexivity|].
  now rewrite IH.
Qed.

Lemma od_set_absent k v d :
  od_mem k d = false -> od_set k v d = d ++ [(k, v)].
Proof.
  unfold od_mem.
  induction d as [|[k' v'] d IH]; simpl; [reflexivity|].
  destruct (String.eqb k k') eqn:E; [discriminate|].
  intros H. now rewrite IH.
Qed.


End OrderedDictFacts.

(** ** What the methods compute *)

Lemma signals_setfield_run k field v self d :
  od_lookup k (_mo_analysis_signals self) = Some d ->
  signals_setfield k field v self =
  Returns tt (with_signals (od_set k (od_set field v d) (_mo_analysis_signals self)) self).
Proof.
  intros H. unfold signals_setfield, bind, signals_getitem.
  now rewrite H.
Qed.

(** A second field assignment meets the rule the first one left. *)
Lemma signals_setfield_again k field v sigs d self :
  _mo_analysis_signals self = od_set k d sigs ->
  signals_setfield k field v self =
  Returns tt (with_signals (od_set k (od_set field v d) sigs) self).
Proof.
  intros H.
  rewrite (signals_setfield_run k field v self d).
  - now rewrite H, od_set_set.
  - rewrite H. apply od_lookup_set_eq.
Qed.

Ltac step_field :=
  unfold bind at 1;
  erewrite signals_setfield_again by (simpl; reflexivity).

Lemma set_mo_analysis_signal_run i b s cb cs bm sm cbm csm self :
  set_mo_analysis_signal i b s cb cs bm sm cbm csm self =
  Returns tt (after_set_signal i b s cb cs bm sm cbm csm self).
Proof.
  unfold set_mo_analysis_signal, after_set_signal, threshold_update.
  unfold bind at 1. unfold signals_contains, od_mem.
  destruct (od_lookup i (_mo_analysis_signals self)) as [d|] eqn:E; simpl negb; cbv iota.
  - unfold bind at 1. unfold ret at 1.
    unfold bind at 1. rewrite (signals_setfield_run _ _ _ _ _ E).
    repeat step_field.
    erewrite signals_setfield_again by (simpl; reflexivity).
    reflexivity.
  - unfold bind at 1. unfold bind at 1. unfold signals_setitem at 1, key_append.
    repeat step_field.
    erewrite signals_setfield_again by (simpl; reflexivity).
    reflexivity.
Qed.

Lemma set_mo_analysis_signal_compare_run i1 i2 cb cs self :
  set_mo_analysis_signal_compare i1 i2 cb cs self =
  Returns tt (after_set_compare i1 i2 cb cs self).
Proof.
  unfold set_mo_analysis_signal_compare, after_set_compare, comparison_update.
  cbv zeta. generalize (comp_key i1 i2) as key. intros key.
  unfold bind at 1. unfold signals_contains, od_mem.
  destruct (od_lookup key (_mo_analysis_signals self)) as [d|] eqn:E; simpl negb; cbv iota.
  - unfold bind at 1. unfold ret at 1.
    unfold bind at 1. unfold signals_getitem at 1. rewrite E.
    unfold bind at 1. rewrite (signals_setfield_run _ _ _ _ _ E).
    repeat step_field.
    erewrite signals_setfield_again by (simpl; reflexivity).
    reflexivity.
  - unfold bind at 1. unfold bind at 1. unfold signals_setitem at 1, comp_key_append.
    unfold bind at 1. unfold signals_getitem at 1.
    cbn [_mo_analysis_signals with_comp_key with_signals].
    rewrite od_lookup_set_eq.
    repeat step_field.
    erewrite signals_setfield_again by (simpl; reflexivity).
    reflexivity.
Qed.

Lemma get_mo_analysis_signal_present name d self :
  name <> "" ->
  od_lookup name (_mo_analysis_signals self) = Some d ->
  get_mo_analysis_signal (Some name) self = Returns (RRule d) self.
Proof.
  intros Hne H. unfold get_mo_analysis_signal.
  destruct name as [|a name]; [congruence|]. cbn [str_truthy].
  unfold bind at 1. unfold signals_contains, od_mem. rewrite H.
  unfold bind, signals_getitem, ret. now rewrite H.
Qed.

Lemma get_mo_analysis_signal_absent name self :
  od_mem name (_mo_analysis_signals self) = false ->
  get_mo_analysis_signal (Some name) self =
  Returns (RSignals (_mo_analysis_signals self)) self.
Proof.
  intros H. unfold get_mo_analysis_signal.
  unfold bind at 1.
  destruct (str_truthy name).
  - unfold signals_contains. now rewrite H.
  - reflexivity.
Qed.

(** ** Registration with a max cutoff and no operator *)

Lemma reachable_after_set i b s cb cs bm sm cbm csm self :
  reachable self -> reachable (after_set_signal i b s cb cs bm sm cbm csm self).
Proof.
  intros H.
  apply (reach_call self (CallSet i b s cb cs bm sm cbm csm)) in H.
  simpl in H. now rewrite set_mo_analysis_signal_run in H.
Qed.

Lemma reachable_after_compare i1 i2 cb cs self :
  reachable self -> reachable (after_set_compare i1 i2 cb cs self).
Proof.
  intros H.
  apply (reach_call self (CallSetCompare i1 i2 cb cs)) in H.
  simpl in H. now rewrite set_mo_analysis_signal_compare_run in H.
Qed.

Lemma lookup_after_set_signal i b s cb cs bm sm cbm csm self :
  exists d0,
    od_lookup i (_mo_analysis_signals (after_set_signal i b s cb cs bm sm cbm csm self))
    = Some (threshold_update b s cb cs bm sm cbm csm d0)
    /\ d0 = match od_lookup i (_mo_analysis_signals self) with
            | Some d => d
            | None => []
            end.
Proof.
  unfold after_set_signal.
  destruct (od_lookup i (_mo_analysis_signals self)) as [d|];
    eexists; (split; [|reflexivity]); simpl; apply od_lookup_set_eq.
Qed.

Lemma threshold_update_fields b s cb cs bm sm cbm csm d :
  let d' := threshold_update b s cb cs bm sm cbm csm d in
  od_lookup "buy" d' = Some b /\
  od_lookup "sell" d' = Some s /\
  od_lookup "buy_operator" d' = Some cb /\
  od_lookup "sell_operator" d' = Some cs /\
  od_lookup "buy_max" d' = Some bm /\
  od_lookup "sell_max" d' = Some sm /\
  od_lookup "buy_operator_max" d' = Some cbm /\
  od_lookup "sell_operator_max" d' = Some csm.
Proof.
  unfold threshold_update; cbv zeta.
  repeat split; repeat (rewrite od_lookup_set; simpl); reflexivity.
Qed.

Lemma threshold_update_other b s cb cs bm sm cbm csm d field :
  ~ In field threshold_fields ->
  od_lookup field (threshold_update b s cb cs bm sm cbm csm d) = od_lookup field d.
Proof.
  intros H. unfold threshold_update.
  repeat (rewrite od_lookup_set_neq;
          [|intros ->; apply H; unfold threshold_fields; simpl; tauto]).
  reflexivity.
Qed.

Lemma forallb_od_lookup_false (p : rule_dict -> bool) k d (sigs : signals_dict) :
  od_lookup k sigs = Some d -> p d = false ->
  forallb (fun kd => p (snd kd)) sigs = false.
Proof.
  induction sigs as [|[k' d'] sigs IH]; simpl; [discriminate|].
  destruct (String.eqb k k').
  - intros [= ->] ->. reflexivity.
  - intros H1 H2. rewrite (IH H1 H2). apply andb_false_r.
Qed.

(** C1, as stated, fails: a call that supplies [buy_max=20] and omits its
    operator does not raise; it returns and stores the rule, and the object
    it leaves is a reachable one whose rule has a max cutoff without
    operator. *)
Lemma dangling_buy_max_is_registered :
  set_mo_analysis_signal "rsi" (VNum 10) (VNum 5) (VStr ">") (VStr "<")
    (VNum 20) VNone VNone VNone fresh
  = Returns tt (with_key ["rsi"] (with_signals [("rsi", rsi_rule_dangling)] fresh))
  /\ set_mo_analysis_signal "rsi" (VNum 10) (VNum 5) (VStr ">") (VStr "<")
       (VNum 20) VNone VNone VNone fresh
     <> Raises InvalidConfig fresh
  /\ od_lookup "rsi"
       (_mo_analysis_signals
          (with_key ["rsi"] (with_signals [("rsi", rsi_rule_dangling)] fresh)))
     = Some rsi_rule_dangling
  /\ field_present "buy_max" rsi_rule_dangling = true
  /\ field_present "buy_operator_max" rsi_rule_dangling = false
  /\ reachable (with_key ["rsi"] (with_signals [("rsi", rsi_rule_dangling)] fresh))
  /\ all_max_guards_ok
       (with_key ["rsi"] (with_signals [("rsi", rsi_rule_dangling)] fresh)) = false.
Proof.
  assert (E : set_mo_analysis_signal "rsi" (VNum 10) (VNum 5) (VStr ">") (VStr "<")
                (VNum 20) VNone VNone VNone fresh
              = Returns tt (with_key ["rsi"] (with_signals [("rsi", rsi_rule_dangling)] fresh)))
    by reflexivity.
  split; [exact E|].
  split; [rewrite E; discriminate|].
  repeat (split; [reflexivity|]).
  split; [|reflexivity].
  change (reachable (state_after
    (run_call (CallSet "rsi" (VNum 10) (VNum 5) (VStr ">") (VStr "<")
                 (VNum 20) VNone VNone VNone) fresh))).
  apply reach_call, reach_init.
Qed.

(** C1, amended: a registration that supplies a max cutoff and omits the
    paired operator returns without raising, and the rule it stores under
    the name carries the four max fields exactly as passed, so that rule has
    a max cutoff without operator; the object stays reachable. *)
Theorem set_signal_accepts_dangling_max
    (indicator : string) (buy sell condition_buy condition_sell : value)
    (buy_max sell_max condition_buy_max condition_sell_max : value)
    (self : mo_analysis) :
  dangling buy_max condition_buy_max \/ dangling sell_max condition_sell_max ->
  exists self' d,
    set_mo_analysis_signal indicator buy sell condition_buy condition_sell
      buy_max sell_max condition_buy_max condition_sell_max self
    = Returns tt self'
    /\ od_lookup indicator (_mo_analysis_signals self') = Some d
    /\ od_lookup "buy_max" d = Some buy_max
    /\ od_lookup "sell_max" d = Some sell_max
    /\ od_lookup "buy_operator_max" d = Some condition_buy_max
    /\ od_lookup "sell_operator_max" d = Some condition_sell_max
    /\ max_guard_ok d = false
    /\ all_max_guards_ok self' = false
    /\ (reachable self -> reachable self').
Proof.
  intros Hd.
  destruct (lookup_after_set_signal indicator buy sell condition_buy condition_sell
              buy_max sell_max condition_buy_max condition_sell_max self)
    as (d0 & Hl & _).
  destruct (threshold_update_fields buy sell condition_buy condition_sell
              buy_max sell_max condition_buy_max condition_sell_max d0)
    as (_ & _ & _ & _ & Hbm & Hsm & Hcbm & Hcsm).
  assert (Hbad : max_guard_ok
                   (threshold_update buy sell condition_buy condition_sell
                      buy_max sell_max condition_buy_max condition_sell_max d0) = false).
  { unfold max_guard_ok, field_present. rewrite Hbm, Hsm, Hcbm, Hcsm.
    destruct Hd as [[Hc Ho]|[Hc Ho]]; subst.
    - destruct buy_max; try congruence; reflexivity.
    - destruct sell_max; try congruence; simpl; apply andb_false_r. }
  eexists; eexists.
  split; [apply set_mo_analysis_signal_run|].
  split; [exact Hl|].
  repeat (split; [assumption|]).
  split.
  - unfold all_max_guards_ok.
    eapply forallb_od_lookup_false; [exact Hl|exact Hbad].
  - apply reachable_after_set.
Qed.

Lemma set_signal_accepts_dangling_max_witness :
  (dangling (VNum 20) VNone \/ dangling VNone VNone)
  /\ exists self' d,
       set_mo_analysis_signal "rsi" (VNum 10) (VNum 5) (VStr ">") (VStr "<")
         (VNum 20) VNone VNone VNone fresh
       = Returns tt self'
       /\ od_lookup "rsi" (_mo_analysis_signals self') = Some d
       /\ od_lookup "buy_max" d = Some (VNum 20)
       /\ od_lookup "sell_max" d = Some VNone
       /\ od_lookup "buy_operator_max" d = Some VNone
       /\ od_lookup "sell_operator_max" d = Some VNone
       /\ max_guard_ok d = false
       /\ all_max_guards_ok self' = false
       /\ (reachable fresh -> reachable self').
Proof.
  assert (H : dangling (VNum 20) VNone \/ dangling VNone VNone).
  { left. split; [discriminate|reflexivity]. }
  split; [exact H|].
  exact (set_signal_accepts_dangling_max "rsi" (VNum 10) (VNum 5) (VStr ">") (VStr "<")
           (VNum 20) VNone VNone VNone fresh H).
Defined.

(** ** Looking a name up *)

Lemma state_after_set_signal i b s cb cs bm sm cbm csm self :
  state_after (set_mo_analysis_signal i b s cb cs bm sm cbm csm self)
  = after_set_signal i b s cb cs bm sm cbm csm self.
Proof. now rewrite set_mo_analysis_signal_run. Qed.

Lemma state_after_set_compare i1 i2 cb cs self :
  state_after (set_mo_analysis_signal_compare i1 i2 cb cs self)
  = after_set_compare i1 i2 cb cs self.
Proof. now rewrite set_mo_analysis_signal_compare_run. Qed.

Lemma signals_after_set_signal i b s cb cs bm sm cbm csm self :
  exists d,
    _mo_analysis_signals (after_set_signal i b s cb cs bm sm cbm csm self)
    = od_set i d (_mo_analysis_signals self).
Proof.
  unfold after_set_signal.
  destruct (od_lookup i (_mo_analysis_signals self)); eexists; reflexivity.
Qed.

Lemma signals_after_set_compare i1 i2 cb cs self :
  exists d,
    _mo_analysis_signals (after_set_compare i1 i2 cb cs self)
    = od_set (comp_key i1 i2) d (_mo_analysis_signals self).
Proof.
  unfold after_set_compare. cbv zeta.
  destruct (od_lookup (comp_key i1 i2) (_mo_analysis_signals self)); eexists; reflexivity.
Qed.

Lemma get_mo_analysis_signal_state i self :
  state_after (get_mo_analysis_signal i self) = self
  /\ exists r, get_mo_analysis_signal i self = Returns r self.
Proof.
  unfold get_mo_analysis_signal.
  destruct i as [name|]; [|split; [reflexivity|eexists; reflexivity]].
  unfold bind at 1 3.
  destruct (str_truthy name); unfold signals_contains, ret, od_mem.
  - destruct (od_lookup name (_mo_analysis_signals self)) as [d|] eqn:E.
    + unfold bind, signals_getitem. rewrite E.
      split; [reflexivity|eexists; reflexivity].
    + split; [reflexivity|eexists; reflexivity].
  - split; [reflexivity|eexists; reflexivity].
Qed.

(** A call that does not register [name] leaves [name] as it was. *)
Lemma run_call_keeps_absent c name self :
  registered_key c <> Some name ->
  od_mem name (_mo_analysis_signals self) = false ->
  od_mem name (_mo_analysis_signals (state_after (run_call c self))) = false.
Proof.
  intros Hk Hm. destruct c; simpl in *.
  - rewrite state_after_set_signal.
    destruct (signals_after_set_signal indicator buy sell condition_buy condition_sell
                buy_max sell_max condition_buy_max condition_sell_max self) as [d ->].
    rewrite od_mem_set, Hm, orb_false_r.
    apply String.eqb_neq. congruence.
  - rewrite state_after_set_compare.
    destruct (signals_after_set_compare indicator_1 indicator_2
                condition_buy condition_sell self) as [d ->].
    rewrite od_mem_set, Hm, orb_false_r.
    apply String.eqb_neq. congruence.
  - destruct (get_mo_analysis_signal_state indicator self) as [_ [r Hr]].
    unfold bind. now rewrite Hr.
  - exact Hm.
Qed.

Lemma run_calls_keep_absent cs name self :
  Forall (fun c => registered_key c <> Some name) cs ->
  od_mem name (_mo_analysis_signals self) = false ->
  od_mem name (_mo_analysis_signals (run_calls cs self)) = false.
Proof.
  revert self. induction cs as [|c cs IH]; intros self Hall Hm; simpl; [exact Hm|].
  inversion Hall as [|? ? Hc Hcs]; subst.
  apply IH; [exact Hcs|]. now apply run_call_keeps_absent.
Qed.

Lemma init_has_no_signal sf name :
  od_mem name (_mo_analysis_signals (__init__ sf)) = false.
Proof.
  unfold __init__. cbv zeta. now destruct (is_multi_index _).
Qed.

(** C2, as stated, fails: with ["rsi"] registered, looking up ["macd"], a
    name that no call registered, returns the registry itself, rule of
    ["rsi"] included, and not [None]. *)
Lemma unknown_name_lookup_is_not_absence :
  get_mo_analysis_signal (Some "macd") (run_calls [register_rsi] fresh)
  = Returns (RSignals [("rsi", rsi_rule)]) (run_calls [register_rsi] fresh)
  /\ get_mo_analysis_signal (Some "macd") (run_calls [register_rsi] fresh)
     <> Returns RNone (run_calls [register_rsi] fresh)
  /\ registered_key register_rsi <> Some "macd".
Proof.
  assert (E : get_mo_analysis_signal (Some "macd") (run_calls [register_rsi] fresh)
              = Returns (RSignals [("rsi", rsi_rule)]) (run_calls [register_rsi] fresh))
    by reflexivity.
  split; [exact E|]. split; [rewrite E; discriminate|discriminate].
Qed.

(** C2, amended: for a name that no call since construction registered, the
    lookup does not raise and leaves the object as it is, and what it
    returns is the whole registry mapping, not an absence value. *)
Theorem get_never_registered_returns_registry
    (sf : StockFrame) (cs : list call) (name : string) :
  Forall (fun c => registered_key c <> Some name) cs ->
  get_mo_analysis_signal (Some name) (run_calls cs (__init__ sf))
  = Returns (RSignals (_mo_analysis_signals (run_calls cs (__init__ sf))))
      (run_calls cs (__init__ sf)).
Proof.
  intros Hall. apply get_mo_analysis_signal_absent.
  apply run_calls_keep_absent; [exact Hall|apply init_has_no_signal].
Qed.

Lemma get_never_registered_returns_registry_witness :
  Forall (fun c => registered_key c <> Some "macd") [register_rsi]
  /\ get_mo_analysis_signal (Some "macd") (run_calls [register_rsi] (__init__ sample_stock_frame))
     = Returns
         (RSignals (_mo_analysis_signals (run_calls [register_rsi] (__init__ sample_stock_frame))))
         (run_calls [register_rsi] (__init__ sample_stock_frame)).
Proof.
  assert (H : Forall (fun c => registered_key c <> Some "macd") [register_rsi]).
  { constructor; [discriminate|constructor]. }
  split; [exact H|].
  exact (get_never_registered_returns_registry sample_stock_frame [register_rsi] "macd" H).
Defined.

(** C8: for a name that is not a key of the registry, the lookup returns
    the entire registry mapping, the very value a call without a name
    returns. *)
Theorem get_unknown_key_is_get_all (self : mo_analysis) (name : string) :
  od_mem name (_mo_analysis_signals self) = false ->
  get_mo_analysis_signal (Some name) self
  = Returns (RSignals (_mo_analysis_signals self)) self
  /\ get_mo_analysis_signal (Some name) self = get_mo_analysis_signal None self.
Proof.
  intros H. rewrite (get_mo_analysis_signal_absent name self H).
  split; reflexivity.
Qed.

Lemma get_unknown_key_is_get_all_witness :
  od_mem "macd" (_mo_analysis_signals (run_calls [register_rsi] fresh)) = false
  /\ get_mo_analysis_signal (Some "macd") (run_calls [register_rsi] fresh)
     = Returns (RSignals (_mo_analysis_signals (run_calls [register_rsi] fresh)))
         (run_calls [register_rsi] fresh)
  /\ get_mo_analysis_signal (Some "macd") (run_calls [register_rsi] fresh)
     = get_mo_analysis_signal None (run_calls [register_rsi] fresh).
Proof.
  split; [reflexivity|].
  exact (get_unknown_key_is_get_all (run_calls [register_rsi] fresh) "macd" eq_refl).
Defined.

(** ** Registering a comparison *)

(** C3 at a concrete call:
    [set_mo_analysis_signal_compare("fast", "slow", ">", "<")] on a new
    object.  The stored rule has the buy operator under ["buy_operator"]; the
    sell operator is under ["condition_sell"], and the rule has no
    ["sell_operator"] field at all. *)
Lemma compare_rule_has_no_sell_operator :
  set_mo_analysis_signal_compare "fast" "slow" (VStr ">") (VStr "<") fresh
  = Returns tt
      (with_comp_key ["fast_comp_slow"]
         (with_signals
            [("fast_comp_slow",
              [("type", VStr "comparison");
               ("indicator_1", VStr "fast");
               ("indicator_2", VStr "slow");
               ("buy_operator", VStr ">");
               ("condition_sell", VStr "<")])] fresh))
  /\ od_lookup "buy_operator"
       [("type", VStr "comparison");
        ("indicator_1", VStr "fast");
        ("indicator_2", VStr "slow");
        ("buy_operator", VStr ">");
        ("condition_sell", VStr "<")] = Some (VStr ">")
  /\ od_lookup "sell_operator"
       [("type", VStr "comparison");
        ("indicator_1", VStr "fast");
        ("indicator_2", VStr "slow");
        ("buy_operator", VStr ">");
        ("condition_sell", VStr "<")] = None
  /\ od_lookup "condition_sell"
       [("type", VStr "comparison");
        ("indicator_1", VStr "fast");
        ("indicator_2", VStr "slow");
        ("buy_operator", VStr ">");
        ("condition_sell", VStr "<")] = Some (VStr "<").
Proof. repeat split. Qed.

Lemma comparison_update_fields i1 i2 cb cs d :
  let d' := comparison_update i1 i2 cb cs d in
  od_lookup "type" d' = Some (VStr "comparison") /\
  od_lookup "indicator_1" d' = Some (VStr i1) /\
  od_lookup "indicator_2" d' = Some (VStr i2) /\
  od_lookup "buy_operator" d' = Some cb /\
  od_lookup "condition_sell" d' = Some cs /\
  od_lookup "sell_operator" d' = od_lookup "sell_operator" d.
Proof.
  unfold comparison_update; cbv zeta.
  repeat split; repeat (rewrite od_lookup_set; simpl); reflexivity.
Qed.

Lemma lookup_after_set_compare i1 i2 cb cs self :
  exists d0,
    od_lookup (comp_key i1 i2)
      (_mo_analysis_signals (after_set_compare i1 i2 cb cs self))
    = Some (comparison_update i1 i2 cb cs d0).
Proof.
  unfold after_set_compare. cbv zeta.
  destruct (od_lookup (comp_key i1 i2) (_mo_analysis_signals self)) as [d|];
    eexists; simpl; apply od_lookup_set_eq.
Qed.

(** ** Registering a threshold name again *)


Lemma after_set_signal_present i b s cb cs bm sm cbm csm self d :
  od_lookup i (_mo_analysis_signals self) = Some d ->
  after_set_signal i b s cb cs bm sm cbm csm self
  = with_signals
      (od_set i (threshold_update b s cb cs bm sm cbm csm d) (_mo_analysis_signals self))
      self.
Proof. intros H. unfold after_set_signal. now rewrite H. Qed.




(** C9: when a name is registered, whatever max-guard values its rule
    holds (both sides, one side or none), registering the name again without
    the optional arguments leaves the four max fields of the stored rule
    [None]; whatever is passed, all eight threshold fields of the stored
    rule are the values of this call, none is kept from the earlier
    registration. *)
Theorem reregistration_resets_max_fields
    (self : mo_analysis) (name : string) (d : rule_dict)
    (buy sell condition_buy condition_sell : value) :
  od_lookup name (_mo_analysis_signals self) = Some d ->
  (exists self' d',
     set_mo_analysis_signal name buy sell condition_buy condition_sell
       VNone VNone VNone VNone self
     = Returns tt self'
     /\ od_lookup name (_mo_analysis_signals self') = Some d'
     /\ od_lookup "buy_max" d' = Some VNone
     /\ od_lookup "sell_max" d' = Some VNone
     /\ od_lookup "buy_operator_max" d' = Some VNone
     /\ od_lookup "sell_operator_max" d' = Some VNone
     /\ field_present "buy_max" d' = false
     /\ field_present "sell_max" d' = false
     /\ field_present "buy_operator_max" d' = false
     /\ field_present "sell_operator_max" d' = false)
  /\ (forall buy_max sell_max condition_buy_max condition_sell_max,
      exists self' d',
        set_mo_analysis_signal name buy sell condition_buy condition_sell
          buy_max sell_max condition_buy_max condition_sell_max self
        = Returns tt self'
        /\ od_lookup name (_mo_analysis_signals self') = Some d'
        /\ od_lookup "buy" d' = Some buy
        /\ od_lookup "sell" d' = Some sell
        /\ od_lookup "buy_operator" d' = Some condition_buy
        /\ od_lookup "sell_operator" d' = Some condition_sell
        /\ od_lookup "buy_max" d' = Some buy_max
        /\ od_lookup "sell_max" d' = Some sell_max
        /\ od_lookup "buy_operator_max" d' = Some condition_buy_max
        /\ od_lookup "sell_operator_max" d' = Some condition_sell_max).
Proof.
  intros E.
  assert (G : forall bm sm cbm csm,
    exists self' d',
      set_mo_analysis_signal name buy sell condition_buy condition_sell bm sm cbm csm self
      = Returns tt self'
      /\ od_lookup name (_mo_analysis_signals self') = Some d'
      /\ od_lookup "buy" d' = Some buy
      /\ od_lookup "sell" d' = Some sell
      /\ od_lookup "buy_operator" d' = Some condition_buy
      /\ od_lookup "sell_operator" d' = Some condition_sell
      /\ od_lookup "buy_max" d' = Some bm
      /\ od_lookup "sell_max" d' = Some sm
      /\ od_lookup "buy_operator_max" d' = Some cbm
      /\ od_lookup "sell_operator_max" d' = Some csm).
  { intros bm sm cbm csm.
    exists (after_set_signal name buy sell condition_buy condition_sell bm sm cbm csm self),
      (threshold_update buy sell condition_buy condition_sell bm sm cbm csm d).
    split; [apply set_mo_analysis_signal_run|].
    split.
    - rewrite (after_set_signal_present _ _ _ _ _ _ _ _ _ _ _ E).
      cbn [_mo_analysis_signals with_signals]. apply od_lookup_set_eq.
    - apply threshold_update_fields. }
  split; [|exact G].
  destruct (G VNone VNone VNone VNone)
    as (self' & d' & Hrun & Hl & _ & _ & _ & _ & Hbm & Hsm & Hcbm & Hcsm).
  exists self', d'. unfold field_present.
  rewrite Hbm, Hsm, Hcbm, Hcsm. repeat (split; [assumption || reflexivity|]).
  reflexivity.
Qed.

Lemma reregistration_resets_max_fields_witness :
  od_lookup "rsi"
    (_mo_analysis_signals
       (run_calls [CallSet "rsi" (VNum 10) (VNum 5) (VStr ">") (VStr "<")
                     (VNum 20) VNone (VStr ">") VNone] fresh))
  = Some [("buy", VNum 10); ("sell", VNum 5);
          ("buy_operator", VStr ">"); ("sell_operator", VStr "<");
          ("buy_max", VNum 20); ("sell_max", VNone);
          ("buy_operator_max", VStr ">"); ("sell_operator_max", VNone)]
  /\ exists self' d',
       set_mo_analysis_signal "rsi" (VNum 30) (VNum 2) (VStr ">=") (VStr "<=")
         VNone VNone VNone VNone
         (run_calls [CallSet "rsi" (VNum 10) (VNum 5) (VStr ">") (VStr "<")
                       (VNum 20) VNone (VStr ">") VNone] fresh)
       = Returns tt self'
       /\ od_lookup "rsi" (_mo_analysis_signals self') = Some d'
       /\ od_lookup "buy_max" d' = Some VNone
       /\ od_lookup "sell_max" d' = Some VNone
       /\ od_lookup "buy_operator_max" d' = Some VNone
       /\ od_lookup "sell_operator_max" d' = Some VNone
       /\ field_present "buy_max" d' = false
       /\ field_present "sell_max" d' = false
       /\ field_present "buy_operator_max" d' = false
       /\ field_present "sell_operator_max" d' = false.
Proof.
  split; [reflexivity|].
  exact (proj1 (reregistration_resets_max_fields
                  (run_calls [CallSet "rsi" (VNum 10) (VNum 5) (VStr ">") (VStr "<")
                                (VNum 20) VNone (VStr ">") VNone] fresh)
                  "rsi"
                  [("buy", VNum 10); ("sell", VNum 5);
                   ("buy_operator", VStr ">"); ("sell_operator", VStr "<");
                   ("buy_max", VNum 20); ("sell_max", VNone);
                   ("buy_operator_max", VStr ">"); ("sell_operator_max", VNone)]
                  (VNum 30) (VNum 2) (VStr ">=") (VStr "<=") eq_refl)).
Defined.

(** ** What a registration does not touch *)

Lemma after_set_signal_frame i b s cb cs bm sm cbm csm self :
  let self' := after_set_signal i b s cb cs bm sm cbm csm self in
  _frame self' = _frame self
  /\ _stock_frame self' = _stock_frame self
  /\ _price_groups self' = _price_groups self
  /\ _current_mo_analysis self' = _current_mo_analysis self
  /\ _mo_analysis_comp_key self' = _mo_analysis_comp_key self.
Proof.
  unfold after_set_signal. cbv zeta.
  destruct (od_lookup i (_mo_analysis_signals self)); repeat split.
Qed.

Lemma after_set_compare_frame i1 i2 cb cs self :
  let self' := after_set_compare i1 i2 cb cs self in
  _frame self' = _frame self
  /\ _stock_frame self' = _stock_frame self
  /\ _price_groups self' = _price_groups self
  /\ _current_mo_analysis self' = _current_mo_analysis self
  /\ _mo_analysis_key self' = _mo_analysis_key self.
Proof.
  unfold after_set_compare. cbv zeta.
  destruct (od_lookup (comp_key i1 i2) (_mo_analysis_signals self)); repeat split.
Qed.

(** C7: a call of either registration method returns, and the object it
    leaves differs from the one it found at most in [_mo_analysis_signals]
    and the two key lists: the frame, the stock-frame reference, the symbol
    grouping and [_current_mo_analysis] are the same. *)
Theorem registration_keeps_price_table (self : mo_analysis) :
  (forall indicator buy sell condition_buy condition_sell
          buy_max sell_max condition_buy_max condition_sell_max,
     exists self',
       set_mo_analysis_signal indicator buy sell condition_buy condition_sell
         buy_max sell_max condition_buy_max condition_sell_max self
       = Returns tt self'
       /\ _frame self' = _frame self
       /\ _stock_frame self' = _stock_frame self
       /\ _price_groups self' = _price_groups self
       /\ _current_mo_analysis self' = _current_mo_analysis self)
  /\ (forall indicator_1 indicator_2 condition_buy condition_sell,
      exists self',
        set_mo_analysis_signal_compare indicator_1 indicator_2
          condition_buy condition_sell self
        = Returns tt self'
        /\ _frame self' = _frame self
        /\ _stock_frame self' = _stock_frame self
        /\ _price_groups self' = _price_groups self
        /\ _current_mo_analysis self' = _current_mo_analysis self).
Proof.
  split.
  - intros i b s cb cs bm sm cbm csm.
    exists (after_set_signal i b s cb cs bm sm cbm csm self).
    split; [apply set_mo_analysis_signal_run|].
    destruct (after_set_signal_frame i b s cb cs bm sm cbm csm self)
      as (H1 & H2 & H3 & H4 & _).
    auto.
  - intros i1 i2 cb cs.
    exists (after_set_compare i1 i2 cb cs self).
    split; [apply set_mo_analysis_signal_compare_run|].
    destruct (after_set_compare_frame i1 i2 cb cs self) as (H1 & H2 & H3 & H4 & _).
    auto.
Qed.

(** ** The setter of [price_data_frame] *)

(** C10: assigning a table through the setter returns, and the object then
    holds the new table as its frame while every other attribute is as
    before; on an object just constructed from a stock frame, the stock-frame
    reference and the symbol grouping are still those of that stock frame,
    whose own frame is the table supplied at construction. *)
Theorem setter_rebinds_frame_only (self : mo_analysis) (df : DataFrame) :
  (exists self',
     set_price_data_frame df self = Returns tt self'
     /\ _frame self' = df
     /\ _stock_frame self' = _stock_frame self
     /\ _price_groups self' = _price_groups self
     /\ _current_mo_analysis self' = _current_mo_analysis self
     /\ _mo_analysis_signals self' = _mo_analysis_signals self
     /\ _mo_analysis_comp_key self' = _mo_analysis_comp_key self
     /\ _mo_analysis_key self' = _mo_analysis_key self)
  /\ (forall sf : StockFrame,
      exists self',
        set_price_data_frame df (__init__ sf) = Returns tt self'
        /\ _frame self' = df
        /\ _stock_frame self' = sf
        /\ _price_groups self' = symbol_groups sf
        /\ frame (_stock_frame self') = _frame (__init__ sf)).
Proof.
  split.
  - exists (with_frame df self). repeat split.
  - intros sf. exists (with_frame df (__init__ sf)).
    unfold __init__. cbv zeta.
    destruct (is_multi_index _); repeat split.
Qed.

(** ** The derived key of a comparison *)

Lemma append_prefix_same_length (a b x y : string) :
  String.length a = String.length b -> (a ++ x = b ++ y)%string -> a = b.
Proof.
  revert b. induction a as [|c a IH]; intros [|c' b]; simpl; try discriminate.
  - reflexivity.
  - intros [= Hlen] [= -> Happ]. f_equal. now apply IH.
Qed.

(** Names of equal length have equal derived keys only when they are equal. *)
Lemma comp_key_swap_same_length (a b : string) :
  String.length a = String.length b -> a <> b -> comp_key a b <> comp_key b a.
Proof.
  intros Hlen Hne Hk. apply Hne. unfold comp_key in Hk.
  now apply append_prefix_same_length in Hk.
Qed.

(** C5, as stated, fails: ["a"] and ["a_comp_a"] are distinct names, yet
    both orders derive the key ["a_comp_a_comp_a"], so registering the pair
    in one order and then the other leaves one entry, holding the second
    registration. *)
Lemma swapped_names_can_share_a_key :
  "a" <> "a_comp_a"
  /\ comp_key "a" "a_comp_a" = comp_key "a_comp_a" "a"
  /\ od_keys
       (_mo_analysis_signals
          (run_calls
             [CallSetCompare "a" "a_comp_a" (VStr ">") (VStr "<");
              CallSetCompare "a_comp_a" "a" (VStr ">") (VStr "<")] fresh))
     = ["a_comp_a_comp_a"]
  /\ od_lookup "a_comp_a_comp_a"
       (_mo_analysis_signals
          (run_calls
             [CallSetCompare "a" "a_comp_a" (VStr ">") (VStr "<");
              CallSetCompare "a_comp_a" "a" (VStr ">") (VStr "<")] fresh))
     = Some [("type", VStr "comparison");
             ("indicator_1", VStr "a_comp_a");
             ("indicator_2", VStr "a");
             ("buy_operator", VStr ">");
             ("condition_sell", VStr "<")].
Proof.
  split; [discriminate|]. repeat split.
Qed.

(** C5, amended: for every pair of names [a] and [b], equal ones included,
    the key under which a comparison of [a] and [b] is stored is
    [a ++ "_comp_" ++ b]: the call returns, the rule naming [a] then [b] is
    under that key, and the rule under every other key is as it was; and
    when the keys derived from the two orders differ, registering [(a, b)]
    and then [(b, a)] leaves two entries under two distinct keys, the first
    naming [a] then [b] and the second [b] then [a], and on an empty
    registry these are its only two keys, in that order. *)
Theorem comparison_key_and_swapped_entries
    (a b : string) (cb cs cb' cs' : value) (self : mo_analysis) :
  comp_key a b = (a ++ "_comp_" ++ b)%string
  /\ (exists self1 d1,
        set_mo_analysis_signal_compare a b cb cs self = Returns tt self1
        /\ od_lookup (a ++ "_comp_" ++ b)%string (_mo_analysis_signals self1) = Some d1
        /\ od_lookup "indicator_1" d1 = Some (VStr a)
        /\ od_lookup "indicator_2" d1 = Some (VStr b)
        /\ (forall k, k <> (a ++ "_comp_" ++ b)%string ->
               od_lookup k (_mo_analysis_signals self1)
               = od_lookup k (_mo_analysis_signals self)))
  /\ (comp_key a b <> comp_key b a ->
      exists self1 self2 d1 d2,
        set_mo_analysis_signal_compare a b cb cs self = Returns tt self1
        /\ set_mo_analysis_signal_compare b a cb' cs' self1 = Returns tt self2
        /\ od_lookup (comp_key a b) (_mo_analysis_signals self1) = Some d1
        /\ od_lookup (comp_key a b) (_mo_analysis_signals self2) = Some d1
        /\ od_lookup (comp_key b a) (_mo_analysis_signals self2) = Some d2
        /\ od_lookup "indicator_1" d1 = Some (VStr a)
        /\ od_lookup "indicator_2" d1 = Some (VStr b)
        /\ od_lookup "indicator_1" d2 = Some (VStr b)
        /\ od_lookup "indicator_2" d2 = Some (VStr a)
        /\ (_mo_analysis_signals self = [] ->
            od_keys (_mo_analysis_signals self2) = [comp_key a b; comp_key b a])).
Proof.
  split; [reflexivity|].
  destruct (lookup_after_set_compare a b cb cs self) as [d0 H1].
  destruct (comparison_update_fields a b cb cs d0) as (_ & Ha1 & Ha2 & _).
  split.
  { exists (after_set_compare a b cb cs self), (comparison_update a b cb cs d0).
    split; [apply set_mo_analysis_signal_compare_run|].
    split; [exact H1|]. split; [exact Ha1|]. split; [exact Ha2|].
    intros k Hk.
    destruct (signals_after_set_compare a b cb cs self) as [dd ->].
    now apply od_lookup_set_neq. }
  intros Hk.
  destruct (lookup_after_set_compare b a cb' cs' (after_set_compare a b cb cs self))
    as [d0' H2].
  destruct (signals_after_set_compare b a cb' cs' (after_set_compare a b cb cs self))
    as [dd Hs2].
  exists (after_set_compare a b cb cs self),
    (after_set_compare b a cb' cs' (after_set_compare a b cb cs self)),
    (comparison_update a b cb cs d0), (comparison_update b a cb' cs' d0').
  split; [apply set_mo_analysis_signal_compare_run|].
  split; [apply set_mo_analysis_signal_compare_run|].
  split; [exact H1|].
  split; [rewrite Hs2, od_lookup_set_neq by exact Hk; exact H1|].
  split; [exact H2|].
  destruct (comparison_update_fields b a cb' cs' d0') as (_ & Hb1 & Hb2 & _).
  repeat (split; [assumption|]).
  intros Hempty.
  unfold after_set_compare at 1. cbv zeta.
  assert (Hsig1 : exists r, _mo_analysis_signals (after_set_compare a b cb cs self)
                            = [(comp_key a b, r)]).
  { unfold after_set_compare. cbv zeta. rewrite Hempty. simpl. eexists; reflexivity. }
  destruct Hsig1 as [r Hsig1]. rewrite Hsig1. simpl.
  destruct (String.eqb (comp_key b a) (comp_key a b)) eqn:E.
  - apply String.eqb_eq in E. congruence.
  - reflexivity.
Qed.

Lemma comparison_key_and_swapped_entries_witness :
  comp_key "fast" "slow" <> comp_key "slow" "fast"
  /\ comp_key "fast" "slow" = "fast_comp_slow"
  /\ (exists self1 d1,
        set_mo_analysis_signal_compare "fast" "slow" (VStr ">") (VStr "<") fresh
        = Returns tt self1
        /\ od_lookup "fast_comp_slow" (_mo_analysis_signals self1) = Some d1
        /\ od_lookup "indicator_1" d1 = Some (VStr "fast")
        /\ od_lookup "indicator_2" d1 = Some (VStr "slow")
        /\ (forall k, k <> "fast_comp_slow" ->
               od_lookup k (_mo_analysis_signals self1)
               = od_lookup k (_mo_analysis_signals fresh)))
  /\ exists self1 self2 d1 d2,
       set_mo_analysis_signal_compare "fast" "slow" (VStr ">") (VStr "<") fresh
       = Returns tt self1
       /\ set_mo_analysis_signal_compare "slow" "fast" (VStr ">") (VStr "<") self1
          = Returns tt self2
       /\ od_lookup (comp_key "fast" "slow") (_mo_analysis_signals self1) = Some d1
       /\ od_lookup (comp_key "fast" "slow") (_mo_analysis_signals self2) = Some d1
       /\ od_lookup (comp_key "slow" "fast") (_mo_analysis_signals self2) = Some d2
       /\ od_lookup "indicator_1" d1 = Some (VStr "fast")
       /\ od_lookup "indicator_2" d1 = Some (VStr "slow")
       /\ od_lookup "indicator_1" d2 = Some (VStr "slow")
       /\ od_lookup "indicator_2" d2 = Some (VStr "fast")
       /\ (_mo_analysis_signals fresh = [] ->
           od_keys (_mo_analysis_signals self2)
           = [comp_key "fast" "slow"; comp_key "slow" "fast"]).
Proof.
  assert (H : comp_key "fast" "slow" <> comp_key "slow" "fast") by discriminate.
  split; [exact H|].
  destruct (comparison_key_and_swapped_entries "fast" "slow"
              (VStr ">") (VStr "<") (VStr ">") (VStr "<") fresh) as (K & P & S).
  split; [exact K|]. split; [exact P|]. exact (S H).
Defined.

(** C6: for a threshold rule with buy 10, buy operator GT, buy max 20 and
    buy max operator GT, whatever its name and sell side, the buy signal
    fires at the value 15, is suppressed at 25, where the max guard holds,
    and does not fire at 5. *)
Theorem max_guard_suppresses_buy
    (name : string) (sell : Q) (sell_operator : SignalEvaluator.RelOp)
    (sell_max : option Q) (sell_max_operator : option SignalEvaluator.RelOp) :
  let r := SignalEvaluator.mkThresholdRule name 10 sell
             SignalEvaluator.GT sell_operator (Some 20%Q) sell_max
             (Some SignalEvaluator.GT) sell_max_operator in
  SignalEvaluator.buy_signal r (Some 15%Q) = SignalEvaluator.Fires
  /\ SignalEvaluator.relop_holds SignalEvaluator.GT 25 10 = true
  /\ SignalEvaluator.guard_holds 25
       (SignalEvaluator.buy_max r) (SignalEvaluator.buy_max_operator r) = true
  /\ SignalEvaluator.buy_signal r (Some 25%Q) = SignalEvaluator.Silent
  /\ SignalEvaluator.buy_signal r (Some 5%Q) = SignalEvaluator.Silent.
Proof.
  cbv zeta. repeat split.
Qed.

(** * Further properties of the registry *)

(** ** More facts about ordered dictionaries *)

Lemma od_set_same {V : Type} k (v : V) d :
  od_lookup k d = Some v -> od_set k v d = d.
Proof.
  induction d as [|[k' v'] d IH]; simpl; [discriminate|].
  destruct (String.eqb k k') eqn:E.
  - now intros [= ->].
  - intros H. now rewrite IH.
Qed.

Lemma od_mem_In {V : Type} k (d : odict V) :
  od_mem k d = true <-> In k (od_keys d).
Proof.
  unfold od_mem, od_keys.
  induction d as [|[k' v'] d IH]; simpl.
  - split; [discriminate|tauto].
  - destruct (String.eqb k k') eqn:E.
    + apply String.eqb_eq in E. subst. tauto.
    + apply String.eqb_neq in E. rewrite IH. split; [tauto|].
      intros [H|H]; [congruence|exact H].
Qed.

Lemma od_keys_set {V : Type} k (v : V) d :
  od_keys (od_set k v d) = if od_mem k d then od_keys d else od_keys d ++ [k].
Proof.
  destruct (od_mem k d) eqn:E.
  - now apply od_keys_set_present.
  - rewrite (od_set_absent k v d E). unfold od_keys. now rewrite map_app.
Qed.

Lemma od_keys_set_NoDup {V : Type} k (v : V) d :
  NoDup (od_keys d) -> NoDup (od_keys (od_set k v d)).
Proof.
  intros H. rewrite od_keys_set.
  destruct (od_mem k d) eqn:E; [exact H|].
  apply NoDup_app; [exact H|repeat constructor; simpl; tauto|].
  intros x Hx [<-|[]].
  apply od_mem_In in Hx. congruence.
Qed.

(** ** Calls never raise *)

Lemma run_call_returns c self :
  run_call c self = Returns tt (state_after (run_call c self)).
Proof.
  destruct c; simpl.
  - now rewrite set_mo_analysis_signal_run.
  - now rewrite set_mo_analysis_signal_compare_run.
  - destruct (get_mo_analysis_signal_state indicator self) as [_ [r Hr]].
    unfold bind. now rewrite Hr.
  - reflexivity.
Qed.

(** X1: every call of a method of the registry returns; the [KeyError] that
    a field assignment on a missing key would raise never surfaces, because
    both registration methods create the entry first and the lookup tests
    membership first. *)
Theorem registry_calls_never_raise (c : call) (self : mo_analysis) :
  (exists self', run_call c self = Returns tt self')
  /\ (forall e self', run_call c self <> Raises e self')
  /\ (forall k field v,
        od_mem k (_mo_analysis_signals self) = false ->
        signals_setfield k field v self = Raises (KeyError k) self).
Proof.
  split; [eexists; apply run_call_returns|].
  split.
  - intros e self'. rewrite run_call_returns. discriminate.
  - intros k field v H. unfold signals_setfield, bind, signals_getitem.
    unfold od_mem in H.
    now destruct (od_lookup k (_mo_analysis_signals self)).
Qed.

(** ** Rules under other keys *)

Lemma signals_after_run_call c self :
  _mo_analysis_signals (state_after (run_call c self)) = _mo_analysis_signals self
  \/ exists k d,
       registered_key c = Some k
       /\ _mo_analysis_signals (state_after (run_call c self))
          = od_set k d (_mo_analysis_signals self).
Proof.
  destruct c; simpl.
  - right. rewrite state_after_set_signal.
    destruct (signals_after_set_signal indicator buy sell condition_buy condition_sell
                buy_max sell_max condition_buy_max condition_sell_max self) as [d Hd].
    eauto.
  - right. rewrite state_after_set_compare.
    destruct (signals_after_set_compare indicator_1 indicator_2
                condition_buy condition_sell self) as [d Hd].
    eauto.
  - left. destruct (get_mo_analysis_signal_state indicator self) as [_ [r Hr]].
    unfold bind. now rewrite Hr.
  - left. reflexivity.
Qed.

(** X2: a call leaves the rule stored under every key other than the one it
    registers exactly as it was (and an absent key absent). *)
Theorem call_leaves_other_rules (c : call) (self : mo_analysis) (k : string) :
  registered_key c <> Some k ->
  od_lookup k (_mo_analysis_signals (state_after (run_call c self)))
  = od_lookup k (_mo_analysis_signals self).
Proof.
  intros Hk.
  destruct (signals_after_run_call c self) as [->|(k' & d & Hr & ->)]; [reflexivity|].
  apply od_lookup_set_neq. congruence.
Qed.

Lemma call_leaves_other_rules_witness :
  registered_key register_rsi <> Some "macd"
  /\ od_lookup "macd"
       (_mo_analysis_signals
          (state_after
             (run_call register_rsi
                (run_calls [CallSet "macd" (VNum 0) (VNum 0) (VStr ">") (VStr "<")
                              VNone VNone VNone VNone] fresh))))
     = od_lookup "macd"
         (_mo_analysis_signals
            (run_calls [CallSet "macd" (VNum 0) (VNum 0) (VStr ">") (VStr "<")
                          VNone VNone VNone VNone] fresh)).
Proof.
  assert (H : registered_key register_rsi <> Some "macd") by discriminate.
  split; [exact H|].
  exact (call_leaves_other_rules register_rsi
           (run_calls [CallSet "macd" (VNum 0) (VNum 0) (VStr ">") (VStr "<")
                         VNone VNone VNone VNone] fresh) "macd" H).
Defined.

(** ** The first registration under a key *)

Lemma od_mem_false_lookup {V : Type} k (d : odict V) :
  od_mem k d = false -> od_lookup k d = None.
Proof. unfold od_mem. now destruct (od_lookup k d). Qed.

(** X3: registering a threshold name that is not yet a key returns, and
    appends one entry at the end of the registry, the rule with exactly the
    eight threshold fields in the order of assignment, and the name at the
    end of [_mo_analysis_key]; the entries before it and the comparison key
    list are as they were, and the lookup of a non-empty such name then
    returns that rule. *)
Theorem first_threshold_registration_appends
    (self : mo_analysis) (name : string)
    (buy sell condition_buy condition_sell : value)
    (buy_max sell_max condition_buy_max condition_sell_max : value) :
  od_mem name (_mo_analysis_signals self) = false ->
  exists self',
    set_mo_analysis_signal name buy sell condition_buy condition_sell
      buy_max sell_max condition_buy_max condition_sell_max self
    = Returns tt self'
    /\ _mo_analysis_signals self'
       = _mo_analysis_signals self
         ++ [(name,
              [("buy", buy); ("sell", sell);
               ("buy_operator", condition_buy); ("sell_operator", condition_sell);
               ("buy_max", buy_max); ("sell_max", sell_max);
               ("buy_operator_max", condition_buy_max);
               ("sell_operator_max", condition_sell_max)])]
    /\ _mo_analysis_key self' = _mo_analysis_key self ++ [name]
    /\ _mo_analysis_comp_key self' = _mo_analysis_comp_key self
    /\ (name <> "" ->
        get_mo_analysis_signal (Some name) self'
        = Returns
            (RRule
               [("buy", buy); ("sell", sell);
                ("buy_operator", condition_buy); ("sell_operator", condition_sell);
                ("buy_max", buy_max); ("sell_max", sell_max);
                ("buy_operator_max", condition_buy_max);
                ("sell_operator_max", condition_sell_max)]) self').
Proof.
  intros Hm. pose proof (od_mem_false_lookup _ _ Hm) as Hl.
  exists (after_set_signal name buy sell condition_buy condition_sell
            buy_max sell_max condition_buy_max condition_sell_max self).
  split; [apply set_mo_analysis_signal_run|].
  unfold after_set_signal. rewrite Hl.
  cbn [_mo_analysis_signals _mo_analysis_key _mo_analysis_comp_key with_signals with_key].
  rewrite (od_set_absent _ _ _ Hm).
  split; [reflexivity|]. split; [reflexivity|]. split; [reflexivity|].
  intros Hne. apply get_mo_analysis_signal_present; [exact Hne|].
  cbn [_mo_analysis_signals with_signals with_key].
  rewrite <- (od_set_absent _ _ _ Hm). apply od_lookup_set_eq.
Qed.

Lemma first_threshold_registration_appends_witness :
  od_mem "macd" (_mo_analysis_signals (run_calls [register_rsi] fresh)) = false
  /\ exists self',
       set_mo_analysis_signal "macd" (VNum 0) (VNum 0) (VStr ">") (VStr "<")
         VNone VNone VNone VNone (run_calls [register_rsi] fresh)
       = Returns tt self'
       /\ _mo_analysis_signals self'
          = _mo_analysis_signals (run_calls [register_rsi] fresh)
            ++ [("macd",
                 [("buy", VNum 0); ("sell", VNum 0);
                  ("buy_operator", VStr ">"); ("sell_operator", VStr "<");
                  ("buy_max", VNone); ("sell_max", VNone);
                  ("buy_operator_max", VNone);
                  ("sell_operator_max", VNone)])]
       /\ _mo_analysis_key self'
          = _mo_analysis_key (run_calls [register_rsi] fresh) ++ ["macd"]
       /\ _mo_analysis_comp_key self'
          = _mo_analysis_comp_key (run_calls [register_rsi] fresh)
       /\ ("macd" <> "" ->
           get_mo_analysis_signal (Some "macd") self'
           = Returns
               (RRule
                  [("buy", VNum 0); ("sell", VNum 0);
                   ("buy_operator", VStr ">"); ("sell_operator", VStr "<");
                   ("buy_max", VNone); ("sell_max", VNone);
                   ("buy_operator_max", VNone);
                   ("sell_operator_max", VNone)]) self').
Proof.
  split; [reflexivity|].
  exact (first_threshold_registration_appends (run_calls [register_rsi] fresh) "macd"
           (VNum 0) (VNum 0) (VStr ">") (VStr "<") VNone VNone VNone VNone eq_refl).
Defined.

Lemma comp_key_not_empty a b : comp_key a b <> "".
Proof. unfold comp_key. destruct a; discriminate. Qed.

(** X4: registering a comparison whose derived key is not yet a key
    returns, and appends one entry at the end of the registry, the rule with
    exactly the five fields [type], [indicator_1], [indicator_2],
    [buy_operator] and [condition_sell], and the key at the end of
    [_mo_analysis_comp_key]; the entries before it and [_mo_analysis_key]
    are as they were. *)
Theorem first_comparison_registration_appends
    (self : mo_analysis) (indicator_1 indicator_2 : string)
    (condition_buy condition_sell : value) :
  od_mem (comp_key indicator_1 indicator_2) (_mo_analysis_signals self) = false ->
  exists self',
    set_mo_analysis_signal_compare indicator_1 indicator_2
      condition_buy condition_sell self
    = Returns tt self'
    /\ _mo_analysis_signals self'
       = _mo_analysis_signals self
         ++ [(comp_key indicator_1 indicator_2,
              [("type", VStr "comparison");
               ("indicator_1", VStr indicator_1);
               ("indicator_2", VStr indicator_2);
               ("buy_operator", condition_buy);
               ("condition_sell", condition_sell)])]
    /\ _mo_analysis_comp_key self'
       = _mo_analysis_comp_key self ++ [comp_key indicator_1 indicator_2]
    /\ _mo_analysis_key self' = _mo_analysis_key self.
Proof.
  intros Hm. pose proof (od_mem_false_lookup _ _ Hm) as Hl.
  exists (after_set_compare indicator_1 indicator_2 condition_buy condition_sell self).
  split; [apply set_mo_analysis_signal_compare_run|].
  unfold after_set_compare. cbv zeta. rewrite Hl.
  cbn [_mo_analysis_signals _mo_analysis_key _mo_analysis_comp_key
       with_signals with_comp_key].
  rewrite (od_set_absent _ _ _ Hm).
  repeat split.
Qed.

Lemma first_comparison_registration_appends_witness :
  od_mem (comp_key "fast" "slow")
    (_mo_analysis_signals (run_calls [register_rsi] fresh)) = false
  /\ exists self',
       set_mo_analysis_signal_compare "fast" "slow" (VStr ">") (VStr "<")
         (run_calls [register_rsi] fresh)
       = Returns tt self'
       /\ _mo_analysis_signals self'
          = _mo_analysis_signals (run_calls [register_rsi] fresh)
            ++ [(comp_key "fast" "slow",
                 [("type", VStr "comparison");
                  ("indicator_1", VStr "fast");
                  ("indicator_2", VStr "slow");
                  ("buy_operator", VStr ">");
                  ("condition_sell", VStr "<")])]
       /\ _mo_analysis_comp_key self'
          = _mo_analysis_comp_key (run_calls [register_rsi] fresh)
            ++ [comp_key "fast" "slow"]
       /\ _mo_analysis_key self' = _mo_analysis_key (run_calls [register_rsi] fresh).
Proof.
  split; [reflexivity|].
  exact (first_comparison_registration_appends (run_calls [register_rsi] fresh)
           "fast" "slow" (VStr ">") (VStr "<") eq_refl).
Defined.

(** ** Lookup after a comparison *)

(** X5: after a comparison is registered, whatever the two names and
    whatever the registry held, the lookup by the derived key returns the
    stored rule (the derived key is never empty), and that rule names the
    two indicators in the order given, has type [comparison], the buy
    operator under [buy_operator] and the sell operator under
    [condition_sell]. *)
Theorem lookup_after_comparison
    (self : mo_analysis) (indicator_1 indicator_2 : string)
    (condition_buy condition_sell : value) :
  exists self' d,
    set_mo_analysis_signal_compare indicator_1 indicator_2
      condition_buy condition_sell self
    = Returns tt self'
    /\ get_mo_analysis_signal (Some (comp_key indicator_1 indicator_2)) self'
       = Returns (RRule d) self'
    /\ od_lookup "type" d = Some (VStr "comparison")
    /\ od_lookup "indicator_1" d = Some (VStr indicator_1)
    /\ od_lookup "indicator_2" d = Some (VStr indicator_2)
    /\ od_lookup "buy_operator" d = Some condition_buy
    /\ od_lookup "condition_sell" d = Some condition_sell.
Proof.
  destruct (lookup_after_set_compare indicator_1 indicator_2
              condition_buy condition_sell self) as [d0 Hl].
  exists (after_set_compare indicator_1 indicator_2 condition_buy condition_sell self),
    (comparison_update indicator_1 indicator_2 condition_buy condition_sell d0).
  split; [apply set_mo_analysis_signal_compare_run|].
  split.
  - apply get_mo_analysis_signal_present; [apply comp_key_not_empty|exact Hl].
  - destruct (comparison_update_fields indicator_1 indicator_2
                condition_buy condition_sell d0) as (H1 & H2 & H3 & H4 & H5 & _).
    auto.
Qed.

(** ** What a lookup returns *)

Lemma str_truthy_true name : str_truthy name = true <-> name <> "".
Proof. destruct name; simpl; split; congruence. Qed.

(** X6: a lookup never raises, never returns [None] and leaves the object
    as it is; it returns a single rule exactly when the name is given, is
    not the empty string and is a key of the registry, and that rule is the
    one stored under the name; in every other case it returns the whole
    registry. *)
Theorem lookup_is_read_only_and_classified
    (indicator : option string) (self : mo_analysis) :
  exists r,
    get_mo_analysis_signal indicator self = Returns r self
    /\ r <> RNone
    /\ (forall d,
          r = RRule d <->
          exists name,
            indicator = Some name /\ name <> ""
            /\ od_lookup name (_mo_analysis_signals self) = Some d)
    /\ ((forall d, r <> RRule d) -> r = RSignals (_mo_analysis_signals self)).
Proof.
  destruct indicator as [name|].
  - destruct (str_truthy name) eqn:Ht.
    + destruct (od_lookup name (_mo_analysis_signals self)) as [d|] eqn:El.
      * exists (RRule d).
        split; [apply get_mo_analysis_signal_present;
                [now apply str_truthy_true|exact El]|].
        split; [discriminate|]. split.
        -- intros d'. split.
           ++ intros [= <-]. exists name. repeat split; [|exact El].
              now apply str_truthy_true.
           ++ intros (n & [= <-] & _ & Hl). congruence.
        -- intros H. now destruct (H d).
      * exists (RSignals (_mo_analysis_signals self)).
        split; [apply get_mo_analysis_signal_absent; unfold od_mem; now rewrite El|].
        split; [discriminate|]. split; [|reflexivity].
        intros d. split; [discriminate|].
        intros (n & [= <-] & _ & Hl). congruence.
    + exists (RSignals (_mo_analysis_signals self)).
      split; [unfold get_mo_analysis_signal, bind; now rewrite Ht|].
      split; [discriminate|]. split; [|reflexivity].
      intros d. split; [discriminate|].
      intros (n & [= <-] & Hne & _). apply str_truthy_true in Hne. congruence.
  - exists (RSignals (_mo_analysis_signals self)).
    split; [reflexivity|]. split; [discriminate|]. split; [|reflexivity].
    intros d. split; [discriminate|]. intros (n & H & _). discriminate.
Qed.

(** ** The registry over a trace of calls *)

Lemma od_keys_after_run_call c self :
  od_keys (_mo_analysis_signals (state_after (run_call c self)))
  = od_keys (_mo_analysis_signals self)
  \/ exists k,
       registered_key c = Some k
       /\ od_keys (_mo_analysis_signals (state_after (run_call c self)))
          = od_keys (_mo_analysis_signals self) ++ [k].
Proof.
  destruct (signals_after_run_call c self) as [->|(k & d & Hr & ->)]; [now left|].
  rewrite od_keys_set. destruct (od_mem k (_mo_analysis_signals self)); eauto.
Qed.

(** X8: over any sequence of calls the registry only grows at its end: the
    keys it had keep their positions, no rule is ever removed, and every key
    that was added is one that a call of the sequence registered. *)
Theorem registry_only_grows_at_the_end (cs : list call) (self : mo_analysis) :
  exists added,
    od_keys (_mo_analysis_signals (run_calls cs self))
    = od_keys (_mo_analysis_signals self) ++ added
    /\ incl added (registered_keys cs)
    /\ (forall k, od_mem k (_mo_analysis_signals self) = true ->
                  od_mem k (_mo_analysis_signals (run_calls cs self)) = true).
Proof.
  assert (G : exists added,
             od_keys (_mo_analysis_signals (run_calls cs self))
             = od_keys (_mo_analysis_signals self) ++ added
             /\ incl added (registered_keys cs)).
  { revert self. induction cs as [|c cs IH]; intros self; simpl.
    - exists []. split; [now rewrite app_nil_r|apply incl_refl].
    - destruct (IH (state_after (run_call c self))) as (l & Hl & Hin).
      destruct (od_keys_after_run_call c self) as [E|(k & Hk & E)];
        rewrite E in Hl.
      + exists l. split; [exact Hl|].
        destruct (registered_key c); [now apply incl_tl|exact Hin].
      + exists (k :: l). rewrite Hk. split.
        * now rewrite Hl, <- app_assoc.
        * intros x [<-|Hx]; [now left|right; now apply Hin]. }
  destruct G as (added & Hk & Hin). exists added.
  split; [exact Hk|]. split; [exact Hin|].
  intros k Hm. apply od_mem_In. rewrite Hk. apply in_or_app. left.
  now apply od_mem_In.
Qed.

(** ** Invariants of reachable objects *)

Lemma keys_partitioned_init sf : keys_partitioned (__init__ sf).
Proof.
  unfold keys_partitioned, __init__. cbv zeta.
  destruct (is_multi_index _); simpl; split; constructor.
Qed.

Lemma keys_partitioned_call c self :
  keys_partitioned self -> keys_partitioned (state_after (run_call c self)).
Proof.
  unfold keys_partitioned. intros [Hnd Hp]. destruct c; simpl.
  - rewrite state_after_set_signal. unfold after_set_signal.
    destruct (od_lookup indicator (_mo_analysis_signals self)) as [d|] eqn:E;
      cbn [_mo_analysis_signals _mo_analysis_key _mo_analysis_comp_key
           with_signals with_key].
    + rewrite od_keys_set_present by (unfold od_mem; now rewrite E). now split.
    + split; [now apply od_keys_set_NoDup|].
      rewrite od_keys_set. unfold od_mem. rewrite E.
      rewrite <- app_assoc.
      eapply Permutation_trans;
        [apply Permutation_app_tail; exact Hp|].
      rewrite <- app_assoc. apply Permutation_app_head, Permutation_app_comm.
  - rewrite state_after_set_compare. unfold after_set_compare. cbv zeta.
    destruct (od_lookup (comp_key indicator_1 indicator_2) (_mo_analysis_signals self))
      as [d|] eqn:E;
      cbn [_mo_analysis_signals _mo_analysis_key _mo_analysis_comp_key
           with_signals with_comp_key].
    + rewrite od_keys_set_present by (unfold od_mem; now rewrite E). now split.
    + split; [now apply od_keys_set_NoDup|].
      rewrite od_keys_set. unfold od_mem. rewrite E.
      rewrite app_assoc. now apply Permutation_app_tail.
  - destruct (get_mo_analysis_signal_state indicator self) as [_ [r Hr]].
    unfold bind. rewrite Hr. now split.
  - now split.
Qed.

(** X9: in every object reachable from the constructor by calls of the
    class, the keys of the registry are pairwise different, and they are, up
    to order, the threshold key list followed by the comparison key list: a
    key is in exactly one of the two lists, once, and the registry has as
    many rules as the two lists have keys. *)
Theorem reachable_keys_partitioned (self : mo_analysis) :
  reachable self ->
  NoDup (od_keys (_mo_analysis_signals self))
  /\ Permutation (od_keys (_mo_analysis_signals self))
       (_mo_analysis_key self ++ _mo_analysis_comp_key self)
  /\ NoDup (_mo_analysis_key self ++ _mo_analysis_comp_key self)
  /\ List.length (_mo_analysis_signals self)
     = (List.length (_mo_analysis_key self)
        + List.length (_mo_analysis_comp_key self))%nat.
Proof.
  intros Hr.
  assert (H : keys_partitioned self).
  { induction Hr; [apply keys_partitioned_init|now apply keys_partitioned_call]. }
  destruct H as [Hnd Hp].
  split; [exact Hnd|]. split; [exact Hp|].
  split; [exact (Permutation_NoDup Hp Hnd)|].
  apply Permutation_length in Hp. unfold od_keys in Hp.
  now rewrite List.length_map, List.length_app in Hp.
Qed.

Lemma reachable_keys_partitioned_witness :
  reachable (state_after (run_call register_rsi fresh))
  /\ NoDup (od_keys (_mo_analysis_signals (state_after (run_call register_rsi fresh))))
  /\ Permutation
       (od_keys (_mo_analysis_signals (state_after (run_call register_rsi fresh))))
       (_mo_analysis_key (state_after (run_call register_rsi fresh))
        ++ _mo_analysis_comp_key (state_after (run_call register_rsi fresh)))
  /\ NoDup (_mo_analysis_key (state_after (run_call register_rsi fresh))
            ++ _mo_analysis_comp_key (state_after (run_call register_rsi fresh)))
  /\ List.length (_mo_analysis_signals (state_after (run_call register_rsi fresh)))
     = (List.length (_mo_analysis_key (state_after (run_call register_rsi fresh)))
        + List.length
            (_mo_analysis_comp_key (state_after (run_call register_rsi fresh))))%nat.
Proof.
  assert (H : reachable (state_after (run_call register_rsi fresh))).
  { apply reach_call. exact (reach_init sample_stock_frame). }
  split; [exact H|].
  exact (reachable_keys_partitioned (state_after (run_call register_rsi fresh)) H).
Defined.

Lemma threshold_update_shaped b s cb cs bm sm cbm csm d :
  has_fields threshold_fields (threshold_update b s cb cs bm sm cbm csm d) = true.
Proof.
  destruct (threshold_update_fields b s cb cs bm sm cbm csm d)
    as (H1 & H2 & H3 & H4 & H5 & H6 & H7 & H8).
  cbv zeta in *. unfold has_fields, threshold_fields, od_mem. simpl.
  now rewrite H1, H2, H3, H4, H5, H6, H7, H8.
Qed.

Lemma comparison_update_shaped i1 i2 cb cs d :
  has_fields comparison_fields (comparison_update i1 i2 cb cs d) = true.
Proof.
  destruct (comparison_update_fields i1 i2 cb cs d) as (H1 & H2 & H3 & H4 & H5 & _).
  cbv zeta in *. unfold has_fields, comparison_fields, od_mem. simpl.
  now rewrite H1, H2, H3, H4, H5.
Qed.

Lemma rules_shaped_call c self :
  (forall k d, od_lookup k (_mo_analysis_signals self) = Some d -> rule_shaped d = true) ->
  forall k d,
    od_lookup k (_mo_analysis_signals (state_after (run_call c self))) = Some d ->
    rule_shaped d = true.
Proof.
  intros IH k d.
  destruct c; simpl.
  - rewrite state_after_set_signal.
    destruct (lookup_after_set_signal indicator buy sell condition_buy condition_sell
                buy_max sell_max condition_buy_max condition_sell_max self)
      as (d0 & Hl & _).
    destruct (String.eqb k indicator) eqn:E.
    + apply String.eqb_eq in E. subst k. rewrite Hl. intros [= <-].
      unfold rule_shaped. now rewrite threshold_update_shaped.
    + apply String.eqb_neq in E.
      destruct (signals_after_set_signal indicator buy sell condition_buy condition_sell
                  buy_max sell_max condition_buy_max condition_sell_max self) as [d1 ->].
      rewrite od_lookup_set_neq by exact E. apply IH.
  - rewrite state_after_set_compare.
    destruct (lookup_after_set_compare indicator_1 indicator_2
                condition_buy condition_sell self) as (d0 & Hl).
    destruct (String.eqb k (comp_key indicator_1 indicator_2)) eqn:E.
    + apply String.eqb_eq in E. subst k. rewrite Hl. intros [= <-].
      unfold rule_shaped. rewrite comparison_update_shaped. apply orb_true_r.
    + apply String.eqb_neq in E.
      destruct (signals_after_set_compare indicator_1 indicator_2
                  condition_buy condition_sell self) as [d1 ->].
      rewrite od_lookup_set_neq by exact E. apply IH.
  - destruct (get_mo_analysis_signal_state indicator self) as [_ [r Hr]].
    unfold bind. rewrite Hr. apply IH.
  - apply IH.
Qed.

(** X10: in every object reachable from the constructor by calls of the
    class, each stored rule is complete: it has all eight threshold fields
    or all five comparison fields (or both); no call ever leaves the empty
    rule that a registration creates first, nor a partly filled one. *)
Theorem reachable_rules_complete (self : mo_analysis) (k : string) (d : rule_dict) :
  reachable self ->
  od_lookup k (_mo_analysis_signals self) = Some d ->
  has_fields threshold_fields d = true \/ has_fields comparison_fields d = true.
Proof.
  intros Hr Hl. apply orb_true_iff. change (rule_shaped d = true).
  revert k d Hl. induction Hr as [sf|self c Hr IH].
  - intros k d. unfold __init__. cbv zeta.
    destruct (is_multi_index _); discriminate.
  - now apply rules_shaped_call.
Qed.

Lemma reachable_rules_complete_witness :
  reachable (state_after (run_call register_rsi fresh))
  /\ od_lookup "rsi" (_mo_analysis_signals (state_after (run_call register_rsi fresh)))
     = Some rsi_rule
  /\ (has_fields threshold_fields rsi_rule = true
      \/ has_fields comparison_fields rsi_rule = true).
Proof.
  assert (H : reachable (state_after (run_call register_rsi fresh))).
  { apply reach_call. exact (reach_init sample_stock_frame). }
  split; [exact H|]. split; [reflexivity|].
  exact (reachable_rules_complete (state_after (run_call register_rsi fresh))
           "rsi" rsi_rule H eq_refl).
Defined.

(** ** A threshold registered under the key of a comparison *)

(** X11: the two kinds of rule share one registry and the field
    [buy_operator]: when a threshold is registered under the derived key of
    a comparison registered before, the entry keeps its place and its
    comparison fields [type], [indicator_1], [indicator_2] and
    [condition_sell], gains the threshold fields, and its [buy_operator] is
    overwritten by the threshold's; the name is not appended to
    [_mo_analysis_key]. *)
Theorem threshold_over_comparison_merges
    (self : mo_analysis) (indicator_1 indicator_2 : string) (cb cs : value)
    (buy sell condition_buy condition_sell : value)
    (buy_max sell_max condition_buy_max condition_sell_max : value) :
  exists self1 self2 d,
    set_mo_analysis_signal_compare indicator_1 indicator_2 cb cs self
    = Returns tt self1
    /\ set_mo_analysis_signal (comp_key indicator_1 indicator_2)
         buy sell condition_buy condition_sell
         buy_max sell_max condition_buy_max condition_sell_max self1
       = Returns tt self2
    /\ od_keys (_mo_analysis_signals self2) = od_keys (_mo_analysis_signals self1)
    /\ _mo_analysis_key self2 = _mo_analysis_key self
    /\ _mo_analysis_comp_key self2 = _mo_analysis_comp_key self1
    /\ od_lookup (comp_key indicator_1 indicator_2) (_mo_analysis_signals self2) = Some d
    /\ od_lookup "type" d = Some (VStr "comparison")
    /\ od_lookup "indicator_1" d = Some (VStr indicator_1)
    /\ od_lookup "indicator_2" d = Some (VStr indicator_2)
    /\ od_lookup "condition_sell" d = Some cs
    /\ od_lookup "buy_operator" d = Some condition_buy
    /\ od_lookup "sell_operator" d = Some condition_sell
    /\ od_lookup "buy" d = Some buy
    /\ od_lookup "sell" d = Some sell
    /\ has_fields threshold_fields d = true
    /\ has_fields comparison_fields d = true.
Proof.
  set (key := comp_key indicator_1 indicator_2).
  destruct (lookup_after_set_compare indicator_1 indicator_2 cb cs self) as (d0 & Hl).
  fold key in Hl.
  set (self1 := after_set_compare indicator_1 indicator_2 cb cs self) in *.
  set (dc := comparison_update indicator_1 indicator_2 cb cs d0) in *.
  exists self1,
    (after_set_signal key buy sell condition_buy condition_sell
       buy_max sell_max condition_buy_max condition_sell_max self1),
    (threshold_update buy sell condition_buy condition_sell
       buy_max sell_max condition_buy_max condition_sell_max dc).
  split; [apply set_mo_analysis_signal_compare_run|].
  split; [apply set_mo_analysis_signal_run|].
  rewrite (after_set_signal_present _ _ _ _ _ _ _ _ _ _ _ Hl).
  cbn [_mo_analysis_signals _mo_analysis_key _mo_analysis_comp_key with_signals].
  split; [apply od_keys_set_present; unfold od_mem; now rewrite Hl|].
  split.
  { destruct (after_set_compare_frame indicator_1 indicator_2 cb cs self)
      as (_ & _ & _ & _ & Hk). exact Hk. }
  split; [reflexivity|].
  split; [apply od_lookup_set_eq|].
  destruct (comparison_update_fields indicator_1 indicator_2 cb cs d0)
    as (H1 & H2 & H3 & _ & H5 & _).
  cbv zeta in *. fold dc in H1, H2, H3, H5.
  destruct (threshold_update_fields buy sell condition_buy condition_sell
              buy_max sell_max condition_buy_max condition_sell_max dc)
    as (T1 & T2 & T3 & T4 & _).
  cbv zeta in *.
  assert (O : forall field, ~ In field threshold_fields ->
            od_lookup field
              (threshold_update buy sell condition_buy condition_sell
                 buy_max sell_max condition_buy_max condition_sell_max dc)
            = od_lookup field dc)
    by (intros; now apply threshold_update_other).
  assert (N1 : ~ In "type" threshold_fields)
    by (unfold threshold_fields; simpl; intuition discriminate).
  assert (N2 : ~ In "indicator_1" threshold_fields)
    by (unfold threshold_fields; simpl; intuition discriminate).
  assert (N3 : ~ In "indicator_2" threshold_fields)
    by (unfold threshold_fields; simpl; intuition discriminate).
  assert (N4 : ~ In "condition_sell" threshold_fields)
    by (unfold threshold_fields; simpl; intuition discriminate).
  split; [now rewrite (O _ N1)|]. split; [now rewrite (O _ N2)|].
  split; [now rewrite (O _ N3)|]. split; [now rewrite (O _ N4)|].
  split; [exact T3|]. split; [exact T4|]. split; [exact T1|]. split; [exact T2|].
  split; [apply threshold_update_shaped|].
  unfold has_fields, comparison_fields, od_mem. simpl.
  now rewrite (O _ N1), (O _ N2), (O _ N3), (O _ N4), H1, H2, H3, H5, T3.
Qed.

(** ** The price table over a trace of calls *)

Lemma run_call_price_table c self :
  _frame (state_after (run_call c self)) = last_assigned_frame [c] (_frame self)
  /\ _stock_frame (state_after (run_call c self)) = _stock_frame self
  /\ _price_groups (state_after (run_call c self)) = _price_groups self
  /\ _current_mo_analysis (state_after (run_call c self)) = _current_mo_analysis self.
Proof.
  destruct c; simpl.
  - rewrite state_after_set_signal.
    destruct (after_set_signal_frame indicator buy sell condition_buy condition_sell
                buy_max sell_max condition_buy_max condition_sell_max self)
      as (H1 & H2 & H3 & H4 & _).
    auto.
  - rewrite state_after_set_compare.
    destruct (after_set_compare_frame indicator_1 indicator_2
                condition_buy condition_sell self) as (H1 & H2 & H3 & H4 & _).
    auto.
  - destruct (get_mo_analysis_signal_state indicator self) as [_ [r Hr]].
    unfold bind. rewrite Hr. auto.
  - auto.
Qed.

(** X12: after any sequence of calls the getter of [price_data_frame]
    returns the table of the last assignment through the setter, or the
    table the object held before when the sequence has none; registrations
    and lookups in between do not matter, and no call of the sequence
    changes the stock-frame reference, the symbol grouping or
    [_current_mo_analysis]. *)
Theorem price_table_over_a_trace (cs : list call) (self : mo_analysis) :
  price_data_frame (run_calls cs self)
  = Returns (last_assigned_frame cs (_frame self)) (run_calls cs self)
  /\ _stock_frame (run_calls cs self) = _stock_frame self
  /\ _price_groups (run_calls cs self) = _price_groups self
  /\ _current_mo_analysis (run_calls cs self) = _current_mo_analysis self.
Proof.
  unfold price_data_frame.
  revert self. induction cs as [|c cs IH]; intros self; simpl.
  - auto.
  - destruct (IH (state_after (run_call c self))) as (H1 & H2 & H3 & H4).
    destruct (run_call_price_table c self) as (G1 & G2 & G3 & G4).
    rewrite H2, H3, H4, G2, G3, G4.
    repeat split.
    rewrite H1. f_equal. rewrite G1. now destruct c.
Qed.

(** ** Derived keys *)

Lemma append_same_prefix (a x y : string) :
  (a ++ x = a ++ y)%string -> x = y.
Proof.
  induction a as [|c a IH]; simpl; [tauto|].
  intros [= H]. now apply IH.
Qed.

Lemma string_append_assoc (a b c : string) :
  ((a ++ b) ++ c = a ++ (b ++ c))%string.
Proof.
  induction a as [|ch a IH]; simpl; [reflexivity|]. now rewrite IH.
Qed.

(** X13: among pairs whose first names have the same length the derived
    key determines the pair: two such comparisons share a key only when
    both names agree. *)
Theorem comp_key_determines_pair (a b a' b' : string) :
  String.length a = String.length a' ->
  comp_key a b = comp_key a' b' ->
  a = a' /\ b = b'.
Proof.
  intros Hlen Hk. unfold comp_key in Hk.
  pose proof (append_prefix_same_length _ _ _ _ Hlen Hk) as Ha. subst a'.
  split; [reflexivity|].
  apply append_same_prefix in Hk. now injection Hk.
Qed.

Lemma comp_key_determines_pair_witness :
  String.length "fast" = String.length "slow"
  /\ comp_key "fast" "x" = comp_key "fast" "x"
  /\ "fast" = "fast" /\ "x" = "x".
Proof.
  split; [reflexivity|]. split; [reflexivity|].
  exact (comp_key_determines_pair "fast" "x" "fast" "x" eq_refl eq_refl).
Defined.

(** X14: the derived key is ambiguous in general: for all names [a], [b]
    and [c] the comparison of [a_comp_b] with [c] and the comparison of [a]
    with [b_comp_c] derive the same key, so registering the second after
    the first adds no entry and no key; the one entry then names [a] and
    [b_comp_c] and carries the operators of the second registration. *)
Theorem nested_names_share_a_key
    (a b c : string) (cb cs cb' cs' : value) (self : mo_analysis) :
  comp_key (comp_key a b) c = comp_key a (comp_key b c)
  /\ exists self1 self2 d,
       set_mo_analysis_signal_compare (comp_key a b) c cb cs self = Returns tt self1
       /\ set_mo_analysis_signal_compare a (comp_key b c) cb' cs' self1
          = Returns tt self2
       /\ od_keys (_mo_analysis_signals self2) = od_keys (_mo_analysis_signals self1)
       /\ _mo_analysis_comp_key self2 = _mo_analysis_comp_key self1
       /\ od_lookup (comp_key (comp_key a b) c) (_mo_analysis_signals self2) = Some d
       /\ od_lookup "indicator_1" d = Some (VStr a)
       /\ od_lookup "indicator_2" d = Some (VStr (comp_key b c))
       /\ od_lookup "buy_operator" d = Some cb'
       /\ od_lookup "condition_sell" d = Some cs'.
Proof.
  assert (K : comp_key (comp_key a b) c = comp_key a (comp_key b c)).
  { unfold comp_key. now rewrite !string_append_assoc. }
  split; [exact K|].
  destruct (lookup_after_set_compare (comp_key a b) c cb cs self) as (d0 & Hl).
  set (self1 := after_set_compare (comp_key a b) c cb cs self) in *.
  rewrite K in Hl.
  exists self1, (after_set_compare a (comp_key b c) cb' cs' self1),
    (comparison_update a (comp_key b c) cb' cs'
       (comparison_update (comp_key a b) c cb cs d0)).
  split; [apply set_mo_analysis_signal_compare_run|].
  split; [apply set_mo_analysis_signal_compare_run|].
  unfold after_set_compare at 1 2 3. cbv zeta. rewrite Hl.
  cbn [_mo_analysis_signals _mo_analysis_comp_key with_signals].
  split; [apply od_keys_set_present; unfold od_mem; now rewrite Hl|].
  split; [reflexivity|].
  split; [rewrite K; apply od_lookup_set_eq|].
  destruct (comparison_update_fields a (comp_key b c) cb' cs'
              (comparison_update (comp_key a b) c cb cs d0))
    as (_ & H2 & H3 & H4 & H5 & _).
  auto.
Qed.

(** ** Registering a comparison again *)

Lemma comparison_update_other i1 i2 cb cs d field :
  ~ In field comparison_fields ->
  od_lookup field (comparison_update i1 i2 cb cs d) = od_lookup field d.
Proof.
  intros H. unfold comparison_update.
  repeat (rewrite od_lookup_set_neq;
          [|intros ->; apply H; unfold comparison_fields; simpl; tauto]).
  reflexivity.
Qed.

(** X15: registering a comparison whose derived key is already a key
    returns and overwrites that entry in place: the keys of the registry,
    their order and both key lists are as they were, the five comparison
    fields of the stored rule are those of this call, and every other field
    the entry had, such as the threshold fields of an earlier registration
    under that key, stays. *)
Theorem comparison_reregistration_in_place
    (self : mo_analysis) (indicator_1 indicator_2 : string)
    (condition_buy condition_sell : value) :
  od_mem (comp_key indicator_1 indicator_2) (_mo_analysis_signals self) = true ->
  exists self' d d',
    set_mo_analysis_signal_compare indicator_1 indicator_2
      condition_buy condition_sell self
    = Returns tt self'
    /\ od_lookup (comp_key indicator_1 indicator_2) (_mo_analysis_signals self) = Some d
    /\ od_lookup (comp_key indicator_1 indicator_2) (_mo_analysis_signals self') = Some d'
    /\ od_keys (_mo_analysis_signals self') = od_keys (_mo_analysis_signals self)
    /\ _mo_analysis_comp_key self' = _mo_analysis_comp_key self
    /\ _mo_analysis_key self' = _mo_analysis_key self
    /\ od_lookup "type" d' = Some (VStr "comparison")
    /\ od_lookup "indicator_1" d' = Some (VStr indicator_1)
    /\ od_lookup "indicator_2" d' = Some (VStr indicator_2)
    /\ od_lookup "buy_operator" d' = Some condition_buy
    /\ od_lookup "condition_sell" d' = Some condition_sell
    /\ (forall field, ~ In field comparison_fields ->
          od_lookup field d' = od_lookup field d).
Proof.
  intros Hm. assert (Hm' := Hm). unfold od_mem in Hm'.
  destruct (od_lookup (comp_key indicator_1 indicator_2) (_mo_analysis_signals self))
    as [d|] eqn:E; [|discriminate].
  exists (after_set_compare indicator_1 indicator_2 condition_buy condition_sell self),
    d, (comparison_update indicator_1 indicator_2 condition_buy condition_sell d).
  split; [apply set_mo_analysis_signal_compare_run|].
  split; [reflexivity|].
  unfold after_set_compare. cbv zeta. rewrite E.
  cbn [_mo_analysis_signals _mo_analysis_key _mo_analysis_comp_key with_signals].
  split; [apply od_lookup_set_eq|].
  split; [now apply od_keys_set_present|].
  split; [reflexivity|]. split; [reflexivity|].
  destruct (comparison_update_fields indicator_1 indicator_2
              condition_buy condition_sell d) as (H1 & H2 & H3 & H4 & H5 & _).
  repeat (split; [assumption|]).
  intros field Hf. now apply comparison_update_other.
Qed.

Lemma comparison_reregistration_in_place_witness :
  od_mem (comp_key "fast" "slow")
    (_mo_analysis_signals
       (run_calls [CallSetCompare "fast" "slow" (VStr ">") (VStr "<")] fresh)) = true
  /\ exists self' d d',
       set_mo_analysis_signal_compare "fast" "slow" (VStr ">=") (VStr "<=")
         (run_calls [CallSetCompare "fast" "slow" (VStr ">") (VStr "<")] fresh)
       = Returns tt self'
       /\ od_lookup (comp_key "fast" "slow")
            (_mo_analysis_signals
               (run_calls [CallSetCompare "fast" "slow" (VStr ">") (VStr "<")] fresh))
          = Some d
       /\ od_lookup (comp_key "fast" "slow") (_mo_analysis_signals self') = Some d'
       /\ od_keys (_mo_analysis_signals self')
          = od_keys
              (_mo_analysis_signals
                 (run_calls [CallSetCompare "fast" "slow" (VStr ">") (VStr "<")] fresh))
       /\ _mo_analysis_comp_key self'
          = _mo_analysis_comp_key
              (run_calls [CallSetCompare "fast" "slow" (VStr ">") (VStr "<")] fresh)
       /\ _mo_analysis_key self'
          = _mo_analysis_key
              (run_calls [CallSetCompare "fast" "slow" (VStr ">") (VStr "<")] fresh)
       /\ od_lookup "type" d' = Some (VStr "comparison")
       /\ od_lookup "indicator_1" d' = Some (VStr "fast")
       /\ od_lookup "indicator_2" d' = Some (VStr "slow")
       /\ od_lookup "buy_operator" d' = Some (VStr ">=")
       /\ od_lookup "condition_sell" d' = Some (VStr "<=")
       /\ (forall field, ~ In field comparison_fields ->
             od_lookup field d' = od_lookup field d).
Proof.
  split; [reflexivity|].
  exact (comparison_reregistration_in_place
           (run_calls [CallSetCompare "fast" "slow" (VStr ">") (VStr "<")] fresh)
           "fast" "slow" (VStr ">=") (VStr "<=") eq_refl).
Defined.

(** ** [lr_proj] *)

(** [lr_proj] never returns the frame: for all arguments and in every
    object it raises on its first assignment, the attribute
    [_current_indicators] being bound nowhere, and the object is left as it
    was, with nothing recorded for the column. *)
Theorem lr_proj_raises_attribute_error
    (y n : value) (column_name : string) (self : mo_analysis) :
  lr_proj y n column_name self = Raises (OtherError "AttributeError") self
  /\ (forall df self', lr_proj y n column_name self <> Returns df self')
  /\ state_after (lr_proj y n column_name self) = self.
Proof.
  assert (E : lr_proj y n column_name self = Raises (OtherError "AttributeError") self)
    by reflexivity.
  split; [exact E|]. split; [|now rewrite E].
  intros df self'. rewrite E. discriminate.
Qed.

(** ** The last registration wins *)

Lemma od_mem_set_keeps {V : Type} k k' (v : V) d :
  od_mem k d = true -> od_mem k (od_set k' v d) = true.
Proof. intros H. rewrite od_mem_set, H. apply orb_true_r. Qed.

(** Assignments to two different keys commute once the first key is
    there. *)
Lemma od_set_comm {V : Type} k k' (v v' : V) d :
  k <> k' -> od_mem k d = true ->
  od_set k v (od_set k' v' d) = od_set k' v' (od_set k v d).
Proof.
  intros Hne. unfold od_mem.
  induction d as [|[k0 v0] d IH]; simpl; [discriminate|].
  destruct (String.eqb k k0) eqn:E, (String.eqb k' k0) eqn:E'; simpl;
    rewrite ?E, ?E'; try reflexivity.
  - apply String.eqb_eq in E, E'. congruence.
  - intros H. now rewrite IH.
Qed.

Lemma od_set_all_push {V : Type} k (v : V) l d :
  ~ In k (map fst l) -> od_mem k d = true ->
  od_set k v (od_set_all l d) = od_set_all l (od_set k v d).
Proof.
  revert d. induction l as [|[k' v'] l IH]; intros d Hin Hm; simpl; [reflexivity|].
  simpl in Hin. unfold od_set_all in *. simpl.
  rewrite IH; [|tauto|now apply od_mem_set_keeps].
  f_equal. apply od_set_comm; [intros ->; tauto|exact Hm].
Qed.

Lemma od_set_all_overwrite {V : Type} (l1 l2 : list (string * V)) d :
  NoDup (map fst l1) -> map fst l1 = map fst l2 ->
  od_set_all l2 (od_set_all l1 d) = od_set_all l2 d.
Proof.
  revert l2 d. induction l1 as [|[k v1] l1 IH]; intros [|[k2 v2] l2] d Hnd Hk;
    try discriminate; [reflexivity|].
  simpl in Hk. injection Hk as <- Hk. inversion Hnd as [|? ? Hin Hnd']; subst.
  change (od_set_all l2 (od_set k v2 (od_set_all l1 (od_set k v1 d)))
          = od_set_all l2 (od_set k v2 d)).
  rewrite od_set_all_push;
    [|exact Hin|rewrite od_mem_set, String.eqb_refl; reflexivity].
  rewrite od_set_set. now apply IH.
Qed.

Lemma threshold_update_overwrite b s cb cs bm sm cbm csm b' s' cb' cs' bm' sm' cbm' csm' d :
  threshold_update b' s' cb' cs' bm' sm' cbm' csm'
    (threshold_update b s cb cs bm sm cbm csm d)
  = threshold_update b' s' cb' cs' bm' sm' cbm' csm' d.
Proof.
  apply (od_set_all_overwrite
           [("buy", b); ("sell", s); ("buy_operator", cb); ("sell_operator", cs);
            ("buy_max", bm); ("sell_max", sm);
            ("buy_operator_max", cbm); ("sell_operator_max", csm)]
           [("buy", b'); ("sell", s'); ("buy_operator", cb'); ("sell_operator", cs');
            ("buy_max", bm'); ("sell_max", sm');
            ("buy_operator_max", cbm'); ("sell_operator_max", csm')]);
    [|reflexivity].
  simpl. repeat (constructor; [simpl; intuition discriminate|]). constructor.
Qed.

Lemma comparison_update_overwrite i1 i2 cb cs i1' i2' cb' cs' d :
  comparison_update i1' i2' cb' cs' (comparison_update i1 i2 cb cs d)
  = comparison_update i1' i2' cb' cs' d.
Proof.
  apply (od_set_all_overwrite
           [("type", VStr "comparison"); ("indicator_1", VStr i1);
            ("indicator_2", VStr i2); ("buy_operator", cb); ("condition_sell", cs)]
           [("type", VStr "comparison"); ("indicator_1", VStr i1');
            ("indicator_2", VStr i2'); ("buy_operator", cb'); ("condition_sell", cs')]);
    [|reflexivity].
  simpl. repeat (constructor; [simpl; intuition discriminate|]). constructor.
Qed.

Lemma after_set_signal_twice i b s cb cs bm sm cbm csm b' s' cb' cs' bm' sm' cbm' csm' self :
  after_set_signal i b' s' cb' cs' bm' sm' cbm' csm'
    (after_set_signal i b s cb cs bm sm cbm csm self)
  = after_set_signal i b' s' cb' cs' bm' sm' cbm' csm' self.
Proof.
  destruct (lookup_after_set_signal i b s cb cs bm sm cbm csm self) as (d0 & Hl & Hd0).
  rewrite (after_set_signal_present _ _ _ _ _ _ _ _ _ _ _ Hl).
  rewrite threshold_update_overwrite.
  unfold after_set_signal in *.
  destruct (od_lookup i (_mo_analysis_signals self)) as [d|]; subst d0;
    cbn [_mo_analysis_signals with_signals with_key]; now rewrite od_set_set.
Qed.

Lemma after_set_compare_twice i1 i2 cb cs i1' i2' cb' cs' self :
  comp_key i1 i2 = comp_key i1' i2' ->
  after_set_compare i1' i2' cb' cs' (after_set_compare i1 i2 cb cs self)
  = after_set_compare i1' i2' cb' cs' self.
Proof.
  intros K. unfold after_set_compare. cbv zeta. rewrite <- K.
  destruct (od_lookup (comp_key i1 i2) (_mo_analysis_signals self)) as [d|];
    cbn [_mo_analysis_signals with_signals with_comp_key];
    rewrite od_lookup_set_eq, comparison_update_overwrite;
    cbn [_mo_analysis_signals with_signals with_comp_key];
    now rewrite od_set_set.
Qed.

(** X7: the last registration under a key wins, exactly: registering a
    threshold name and then registering it again leaves the object that the
    second registration alone would have left, whatever the arguments of
    the first (in particular, repeating a registration changes nothing);
    the same holds for two comparisons that derive the same key. *)
Theorem last_registration_wins (self : mo_analysis) :
  (forall name b s cb cs bm sm cbm csm b' s' cb' cs' bm' sm' cbm' csm',
     exists self1 self2,
       set_mo_analysis_signal name b s cb cs bm sm cbm csm self = Returns tt self1
       /\ set_mo_analysis_signal name b' s' cb' cs' bm' sm' cbm' csm' self1
          = Returns tt self2
       /\ set_mo_analysis_signal name b' s' cb' cs' bm' sm' cbm' csm' self
          = Returns tt self2)
  /\ (forall i1 i2 cb cs i1' i2' cb' cs',
      comp_key i1 i2 = comp_key i1' i2' ->
      exists self1 self2,
        set_mo_analysis_signal_compare i1 i2 cb cs self = Returns tt self1
        /\ set_mo_analysis_signal_compare i1' i2' cb' cs' self1 = Returns tt self2
        /\ set_mo_analysis_signal_compare i1' i2' cb' cs' self = Returns tt self2).
Proof.
  split.
  - intros. eexists; eexists.
    split; [apply set_mo_analysis_signal_run|].
    split; [apply set_mo_analysis_signal_run|].
    rewrite set_mo_analysis_signal_run. f_equal. symmetry.
    apply after_set_signal_twice.
  - intros i1 i2 cb cs i1' i2' cb' cs' K. eexists; eexists.
    split; [apply set_mo_analysis_signal_compare_run|].
    split; [apply set_mo_analysis_signal_compare_run|].
    rewrite set_mo_analysis_signal_compare_run. f_equal. symmetry.
    now apply after_set_compare_twice.
Qed.

(** ** Registrations under different keys *)

Lemma lookup_after_call c self k :
  od_lookup k (_mo_analysis_signals (state_after (run_call c self)))
  = match registered_key c with
    | Some k' =>
        if String.eqb k k' then
          Some (rule_written c
                  match od_lookup k' (_mo_analysis_signals self) with
                  | Some d => d
                  | None => []
                  end)
        else od_lookup k (_mo_analysis_signals self)
    | None => od_lookup k (_mo_analysis_signals self)
    end.
Proof.
  destruct c; simpl.
  - rewrite state_after_set_signal. unfold after_set_signal.
    destruct (od_lookup indicator (_mo_analysis_signals self));
      cbn [_mo_analysis_signals with_signals with_key]; apply od_lookup_set.
  - rewrite state_after_set_compare. unfold after_set_compare. cbv zeta.
    destruct (od_lookup (comp_key indicator_1 indicator_2) (_mo_analysis_signals self));
      cbn [_mo_analysis_signals with_signals with_comp_key]; apply od_lookup_set.
  - destruct (get_mo_analysis_signal_state indicator self) as [_ [r Hr]].
    unfold bind. now rewrite Hr.
  - reflexivity.
Qed.

(** X16: two registrations under different keys are independent: in
    whichever order they are made, the registry afterwards holds the same
    rule under every key (only the iteration order of two new keys depends
    on the order of the calls). *)
Theorem registrations_under_different_keys_commute
    (c1 c2 : call) (k1 k2 : string) (self : mo_analysis) :
  registered_key c1 = Some k1 ->
  registered_key c2 = Some k2 ->
  k1 <> k2 ->
  forall k,
    od_lookup k (_mo_analysis_signals (run_calls [c1; c2] self))
    = od_lookup k (_mo_analysis_signals (run_calls [c2; c1] self)).
Proof.
  intros H1 H2 Hne k. simpl.
  rewrite !lookup_after_call, H1, H2.
  rewrite !lookup_after_call, H1, H2.
  assert (E12 : String.eqb k1 k2 = false) by now apply String.eqb_neq.
  assert (E21 : String.eqb k2 k1 = false) by (apply String.eqb_neq; congruence).
  rewrite E12, E21.
  destruct (String.eqb k k1) eqn:Ek1, (String.eqb k k2) eqn:Ek2; try reflexivity.
  apply String.eqb_eq in Ek1, Ek2. congruence.
Qed.

Lemma registrations_under_different_keys_commute_witness :
  registered_key register_rsi = Some "rsi"
  /\ registered_key (CallSetCompare "fast" "slow" (VStr ">") (VStr "<"))
     = Some "fast_comp_slow"
  /\ "rsi" <> "fast_comp_slow"
  /\ forall k,
       od_lookup k
         (_mo_analysis_signals
            (run_calls [register_rsi;
                        CallSetCompare "fast" "slow" (VStr ">") (VStr "<")] fresh))
       = od_lookup k
           (_mo_analysis_signals
              (run_calls [CallSetCompare "fast" "slow" (VStr ">") (VStr "<");
                          register_rsi] fresh)).
Proof.
  assert (H : "rsi" <> "fast_comp_slow") by discriminate.
  split; [reflexivity|]. split; [reflexivity|]. split; [exact H|].
  exact (registrations_under_different_keys_commute register_rsi
           (CallSetCompare "fast" "slow" (VStr ">") (VStr "<"))
           "rsi" "fast_comp_slow" fresh eq_refl eq_refl H).
Defined.

(** ** A new object *)

(** X17: on an object just constructed, whatever the stock frame and the
    kind of its index, the registry and both key lists are empty, the held
    frame is the stock frame's, and every lookup, with a name or without,
    returns the empty registry. *)
Theorem new_object_is_empty (sf : StockFrame) (indicator : option string) :
  _mo_analysis_signals (__init__ sf) = []
  /\ _mo_analysis_key (__init__ sf) = []
  /\ _mo_analysis_comp_key (__init__ sf) = []
  /\ _current_mo_analysis (__init__ sf) = []
  /\ price_data_frame (__init__ sf) = Returns (frame sf) (__init__ sf)
  /\ is_multi_index (__init__ sf)
     = match df_index (frame sf) with MultiIndex => true | FlatIndex => false end
  /\ get_mo_analysis_signal indicator (__init__ sf) = Returns (RSignals []) (__init__ sf).
Proof.
  assert (E : __init__ sf
              = mk_mo_analysis sf (symbol_groups sf) [] [] (frame sf) [] []).
  { unfold __init__. cbv zeta. now destruct (is_multi_index _). }
  rewrite E. repeat split.
  destruct indicator as [name|]; [|reflexivity].
  now rewrite get_mo_analysis_signal_absent.
Qed.
